(** * db-koth: reconciliation of KOTH player files with the PlayerData table

    A shallow embedding of the SquadJS plugins of this repository:

    - [DBKoth]   : src/DBKoth.js            (periodic two-way sweep, join/leave hooks)
    - [Part001]  : src/unnamed/part_001     (DBKoth with per-file parse isolation and
                                             the SteamID filter of the catch-up pass)
    - [Part002]  : src/unnamed/part_002     (OfficialKothDB: settings push + sweep)
    - [Part000]  : src/unnamed/part_000     (OfficialKothDB: allow-list sweep, gated
                                             settings push, telemetry counters)

    The file system, the database and the clock are explicit state; the
    asynchronous handlers are run to completion one at a time, so every
    [await] is an ordinary sequencing point of a state-and-exception monad. *)

From stdpp Require Import gmap strings list fin_maps pretty.
From Stdlib Require Import Ascii ZArith Lia.

Open Scope string_scope.

(** ** JavaScript strings *)

(** [s.endsWith(suffix)]: some tail of [s] is [suffix]. *)
Fixpoint endsWith (s suffix : string) : bool :=
  String.eqb s suffix ||
  match s with
  | EmptyString => false
  | String _ s' => endsWith s' suffix
  end.

(** [s.split(sep)] for a non-empty separator.  [skip] counts the characters
    of a separator that has just been matched and is still being stepped
    over; the head of the result is the piece under construction. *)
Fixpoint split_go (sep : string) (skip : nat) (s : string) : list string :=
  match s with
  | EmptyString => [EmptyString]
  | String c s' =>
      match skip with
      | S k => split_go sep k s'
      | O =>
          if String.prefix sep s
          then EmptyString :: split_go sep (String.length sep - 1) s'
          else match split_go sep 0 s' with
               | piece :: pieces => String c piece :: pieces
               | [] => [String c EmptyString]
               end
      end
  end.

Definition split (sep s : string) : list string := split_go sep 0 s.

(** [playerfile.split('.json')[0]] *)
Definition playerfileid (playerfile : string) : string :=
  hd EmptyString (split ".json" playerfile).

(** Number of positions of [s] at which [sep] starts. *)
Fixpoint occurrences (sep s : string) : nat :=
  (if String.prefix sep s then 1 else 0) +
  match s with
  | EmptyString => 0
  | String _ s' => occurrences sep s'
  end.

(** [s.toLowerCase()] on the ASCII letters (file names and player ids are
    ASCII; no other code unit lower-cases to a letter of "serversettings"). *)
Definition lower_char (c : ascii) : ascii :=
  let n := nat_of_ascii c in
  if (65 <=? n)%nat && (n <=? 90)%nat then ascii_of_nat (n + 32) else c.

Fixpoint toLowerCase (s : string) : string :=
  match s with
  | EmptyString => EmptyString
  | String c s' => String (lower_char c) (toLowerCase s')
  end.

(** [/^\d{17}$/.test(s)] *)
Definition is_digit (c : ascii) : bool :=
  let n := nat_of_ascii c in (48 <=? n)%nat && (n <=? 57)%nat.

Fixpoint all_digits (s : string) : bool :=
  match s with
  | EmptyString => true
  | String c s' => is_digit c && all_digits s'
  end.

Definition is_steamid (s : string) : bool :=
  (String.length s =? 17)%nat && all_digits s.

(** ** JSON documents and the host environment *)

(** Values produced by [JSON.parse].  Numbers are the integers: the only
    numbers the plugins compute with are the counters of a [stats]
    sub-document. *)
Unset Elimination Schemes.
Inductive json : Type :=
| JNull
| JBool (b : bool)
| JNum (n : Z)
| JStr (s : string)
| JArr (items : list json)
| JObj (fields : list (string * json)).
Set Elimination Schemes.

(** Truthiness, property access on a parsed document ([None] is
    [undefined]) and [v || d]. *)
Definition js_truthy (v : json) : bool :=
  match v with
  | JNull => false
  | JBool b => b
  | JNum n => negb (n =? 0)%Z
  | JStr s => negb (String.eqb s "")
  | JArr _ | JObj _ => true
  end.

Fixpoint assoc (k : string) (fields : list (string * json)) : option json :=
  match fields with
  | [] => None
  | (k', v) :: rest => if String.eqb k k' then Some v else assoc k rest
  end.

Definition js_get (v : json) (k : string) : option json :=
  match v with
  | JObj fields => assoc k fields
  | _ => None
  end.

Definition js_or (v : option json) (d : json) : json :=
  match v with
  | Some x => if js_truthy x then x else d
  | None => d
  end.

(** JavaScript numbers are IEEE doubles.  [round53 z] is the double nearest
    to the integer [z] (ties to even): [z] itself up to 2^53 in magnitude,
    a multiple of a power of two beyond. *)
Definition round53 (z : Z) : Z :=
  let a := Z.abs z in
  if (a <=? 2 ^ 53)%Z then z
  else
    let sh := (Z.log2 a - 52)%Z in
    let q := (a / 2 ^ sh)%Z in
    let r := (a mod 2 ^ sh)%Z in
    let half := (2 ^ (sh - 1))%Z in
    let q' := if (r <? half)%Z then q
              else if (half <? r)%Z then (q + 1)%Z
              else if Z.even q then q else (q + 1)%Z in
    (Z.sgn z * (q' * 2 ^ sh))%Z.

(** The number [x + y] of two integer-valued numbers.  Both operands are
    numbers (an integer of the table beyond 2^53 reaches JavaScript
    rounded); the result is the rounded sum, or an infinity ([None]) from
    2^1024 on. *)
Definition double_sum (x y : Z) : option Z :=
  let s := round53 (round53 x + round53 y) in
  if (Z.abs s <? 2 ^ 1024)%Z then Some s else None.

(** ** The world: KOTH folder, tables, sessions, clock *)

Record file : Type := File { mtime : Z; content : string }.

(** A row of KOTH_PlayerData; the table is keyed by its unique [player_id]. *)
Record PlayerData : Type := Row {
  lastsave : Z;
  serversave : Z;
  playerdata : json
}.

(** A row of KOTH_PlayerStats; [player_id] carries no unique constraint. *)
Record PlayerStats : Type := Stats {
  player_id : string;
  playtime_seconds : Z;
  kills : Z;
  deaths : Z;
  captures : Z;
  last_updated : Z
}.

Record world : Type := World {
  fs : gmap string file;            (* the KOTH folder, by file name *)
  db : gmap string PlayerData;      (* KOTH_PlayerData, by player_id *)
  stats : list PlayerStats;         (* KOTH_PlayerStats, in row order *)
  sessions : gmap string Z;         (* this.playerSessions: loginTime *)
  tick : nat                        (* clock readings made so far *)
}.

Definition set_fs (f : gmap string file) (w : world) : world :=
  World f (db w) (stats w) (sessions w) (tick w).
Definition set_db (d : gmap string PlayerData) (w : world) : world :=
  World (fs w) d (stats w) (sessions w) (tick w).
Definition set_stats (s : list PlayerStats) (w : world) : world :=
  World (fs w) (db w) s (sessions w) (tick w).
Definition set_sessions (s : gmap string Z) (w : world) : world :=
  World (fs w) (db w) (stats w) s (tick w).
Definition next_tick (w : world) : world :=
  World (fs w) (db w) (stats w) (sessions w) (S (tick w)).

(** What the plugins take from JavaScript, node, the database and the
    SquadJS server: the JSON codec, the string coercion of template
    literals and of [+], the wall clock (the [n]-th reading of the clock
    since the start of the run), [this.server.id],
    [this.options.syncEnabled], what an INTEGER column makes of a number
    or of a text it is given ([None]: the statement is rejected; in every
    dialect the column keeps a 32-bit integer as it is), and the order in
    which [findAll] lists the rows of a table (some order of its rows). *)
Class Host : Type := {
  JSON_parse : string → option json;      (* None: SyntaxError *)
  JSON_stringify : json → string;         (* JSON.stringify(v) *)
  JSON_stringify2 : json → string;        (* JSON.stringify(v, null, 2) *)
  js_String : json → string;              (* `${v}` *)
  clock : nat → Z;
  server_id : Z;
  syncEnabled : bool;
  INTEGER_of_number : Z → option Z;
  INTEGER_of_number_int32 :
    ∀ z, (- 2 ^ 31 ≤ z < 2 ^ 31)%Z → INTEGER_of_number z = Some z;
  INTEGER_of_text : string → option Z;
  table_order : gmap string PlayerData → list (string * PlayerData);
  table_order_perm : ∀ rows, table_order rows ≡ₚ map_to_list rows
}.

(** [n + v] for a number [n]: the sum of two numbers when [v] is a number,
    a boolean or null; otherwise the concatenation of the two as strings. *)
Definition js_add `{Host} (n : Z) (v : json) : Z + string :=
  let number (x y : Z) : Z + string :=
    match double_sum x y with
    | Some s => inl s
    | None => inr (if (0 <? x + y)%Z then "Infinity" else "-Infinity")
    end in
  match v with
  | JNum m => number n m
  | JBool true => number n 1%Z
  | JBool false | JNull => number n 0%Z
  | JStr s => inr (js_String (JNum n) +:+ s)
  | JArr _ | JObj _ => inr (js_String (JNum n) +:+ js_String v)
  end.

(** What an INTEGER column keeps of a value it is given. *)
Definition to_INTEGER `{Host} (v : Z + string) : option Z :=
  match v with
  | inl z => INTEGER_of_number z
  | inr text => INTEGER_of_text text
  end.

(** ** Effects: state with exceptions *)

Inductive outcome (A : Type) : Type :=
| Returned (a : A) (w : world)
| Thrown (w : world).
Arguments Returned {A} a w.
Arguments Thrown {A} w.

Definition M (A : Type) : Type := world → outcome A.

Definition ret {A} (a : A) : M A := λ w, Returned a w.

Definition bind {A B} (m : M A) (k : A → M B) : M B :=
  λ w, match m w with
       | Returned a w' => k a w'
       | Thrown w' => Thrown w'
       end.

Definition throw {A} : M A := λ w, Thrown w.

(** [try { m } catch (err) { handler }] *)
Definition try_catch {A} (m : M A) (handler : M A) : M A :=
  λ w, match m w with
       | Returned a w' => Returned a w'
       | Thrown w' => handler w'
       end.

(** stdpp's monad notations: [x ← m; k] and [m;; k]. *)
#[global] Instance M_ret : MRet M := @ret.
#[global] Instance M_bind : MBind M := λ A B k m, bind m k.

(** The world a computation leaves behind, however it ends. *)
Definition final {A} (o : outcome A) : world :=
  match o with
  | Returned _ w => w
  | Thrown w => w
  end.

Section Primitives.
Context `{Host}.

(** [new Date()] *)
Definition new_Date : M Z :=
  λ w, Returned (clock (tick w)) (next_tick w).

(** [(await stat(path)).mtime]; ENOENT throws. *)
Definition stat_mtime (name : string) : M Z :=
  λ w, match fs w !! name with
       | Some f => Returned (mtime f) w
       | None => Thrown w
       end.

(** [readFile] / [fs.readFileSync]; ENOENT throws. *)
Definition readFile (name : string) : M string :=
  λ w, match fs w !! name with
       | Some f => Returned (content f) w
       | None => Thrown w
       end.

(** [writeFile] / [fs.writeFileSync]: the file system stamps the file with
    the current time. *)
Definition writeFile (name data : string) : M unit :=
  λ w, Returned tt (next_tick (set_fs (<[name := File (clock (tick w)) data]> (fs w)) w)).

Definition existsSync (name : string) : M bool :=
  λ w, Returned (bool_decide (is_Some (fs w !! name))) w.

(** [JSON.parse(text)] *)
Definition parse (text : string) : M json :=
  match JSON_parse text with
  | Some v => ret v
  | None => throw
  end.

(** [typeof v === 'string' ? JSON.parse(v) : v] *)
Definition decode (v : json) : M json :=
  match v with
  | JStr text => parse text
  | _ => ret v
  end.

(** [this.models.PlayerData.findOne({ where: { player_id } })] *)
Definition PlayerData_findOne (id : string) : M (option PlayerData) :=
  λ w, Returned (db w !! id) w.

(** [this.models.PlayerData.upsert(row)], conflicting on [player_id]. *)
Definition PlayerData_upsert (id : string) (row : PlayerData) : M unit :=
  λ w, Returned tt (set_db (<[id := row]> (db w)) w).

(** [this.models.PlayerData.findAll(...)] *)
Definition PlayerData_findAll : M (list (string * PlayerData)) :=
  λ w, Returned (table_order (db w)) w.

(** [this.models.PlayerStats.findOne({ where: { player_id } })] *)
Definition PlayerStats_findOne (id : string) : M (option PlayerStats) :=
  λ w, Returned (find (λ r, String.eqb (player_id r) id) (stats w)) w.

(** [this.models.PlayerStats.update(values, { where: { player_id } })]:
    every matching row is rewritten. *)
Definition PlayerStats_update (id : string) (f : PlayerStats → PlayerStats) : M unit :=
  λ w, Returned tt
         (set_stats (map (λ r, if String.eqb (player_id r) id then f r else r) (stats w)) w).

(** [this.models.PlayerStats.upsert({ player_id, last_updated })]: no key of
    the table is among the values, so a row with the column defaults is
    inserted.  [player_id] references KOTH_PlayerData.player_id (lines
    90-96): with no row of the player there the insert is rejected. *)
Definition PlayerStats_upsert (id : string) (now : Z) : M unit :=
  λ w, match db w !! id with
       | Some _ => Returned tt (set_stats (stats w ++ [Stats id 0 0 0 0 now]) w)
       | None => Thrown w
       end.

(** [this.playerSessions[id]], [this.playerSessions[id] = { loginTime }]
    and [delete this.playerSessions[id]] *)
Definition session_get (id : string) : M (option Z) :=
  λ w, Returned (sessions w !! id) w.

Definition session_open (id : string) (loginTime : Z) : M unit :=
  λ w, Returned tt (set_sessions (<[id := loginTime]> (sessions w)) w).

Definition session_delete (id : string) : M unit :=
  λ w, Returned tt (set_sessions (delete id (sessions w)) w).

End Primitives.

(** [path.join(this.kothpath, `${player.steamID}.json`)], as a name in the
    KOTH folder; shared by every plugin. *)
Definition getplayerfilename (steamID : string) : string := steamID +:+ ".json".

(** [getplayerids(player)] is [{ id: player.steamID }] in every plugin. *)
Definition getplayerids (steamID : string) : string := steamID.

(** [!dbdata || (lastfileedit > dbdata.lastsave)], the test of every sweep. *)
Definition file_is_newer (dbdata : option PlayerData) (lastfileedit : Z) : bool :=
  match dbdata with
  | None => true
  | Some row => (lastsave row <? lastfileedit)%Z
  end.

(** ** src/DBKoth.js *)

Module DBKoth.
Section Plugin.
Context `{Host}.

(** Lines 99-111: the file is pushed to the table.  The row literal reads
    the clock before it parses the text. *)
Definition save_to_db (playerfile id : string) : M unit :=
  playerdata ← readFile playerfile;
  now ← new_Date;
  parsed ← parse playerdata;
  PlayerData_upsert id (Row now server_id parsed).

(** Lines 88-116: the body of the loop over the folder.  The result is
    [processedSteamIDs]. *)
Definition sync_file (playerfile : string) (processedSteamIDs : gset string)
  : M (gset string) :=
  if negb (endsWith playerfile ".json") then ret processedSteamIDs
  else
    let playerfileid := playerfileid playerfile in
    let processedSteamIDs := {[playerfileid]} ∪ processedSteamIDs in
    let id := getplayerids playerfileid in
    dbdata ← PlayerData_findOne id;
    lastfileedit ← stat_mtime playerfile;
    (if file_is_newer dbdata lastfileedit then save_to_db playerfile id
     else match dbdata with
          | Some row => writeFile playerfile (JSON_stringify (playerdata row))
          | None => throw                                 (* not reached *)
          end);;
    ret processedSteamIDs.

Fixpoint for_files (files : list string) (processedSteamIDs : gset string)
  : M (gset string) :=
  match files with
  | [] => ret processedSteamIDs
  | playerfile :: rest =>
      processedSteamIDs ← sync_file playerfile processedSteamIDs;
      for_files rest processedSteamIDs
  end.

(** Lines 122-129: rows of the table without a processed file. *)
Fixpoint catch_up (dbPlayers : list (string * PlayerData))
    (processedSteamIDs : gset string) : M unit :=
  match dbPlayers with
  | [] => ret tt
  | (steamID, dbPlayer) :: rest =>
      (if bool_decide (steamID ∈ processedSteamIDs) then ret tt
       else writeFile (steamID +:+ ".json") (JSON_stringify (playerdata dbPlayer)));;
      catch_up rest processedSteamIDs
  end.

(** Lines 84-131, the body of the [try]; [files] is what
    [readdir(this.kothpath)] returned. *)
Definition sweep (files : list string) : M unit :=
  processedSteamIDs ← for_files files ∅;
  dbPlayers ← PlayerData_findAll;
  catch_up dbPlayers processedSteamIDs.

(** Lines 82-135 *)
Definition syncKothFiles (files : list string) : M unit :=
  try_catch (sweep files) (ret tt).

(** Lines 187-202 *)
Definition onPlayerConnected (steamID : string) : M unit :=
  let playerfilename := getplayerfilename steamID in
  playerdb ← PlayerData_findOne (getplayerids steamID);
  match playerdb with
  | None => ret tt
  | Some row => writeFile playerfilename (JSON_stringify (playerdata row))
  end.

(** Lines 204-227 *)
Definition onPlayerDisconnected (steamID : string) : M unit :=
  let playerfilename := getplayerfilename steamID in
  present ← existsSync playerfilename;
  if negb present then ret tt
  else
    text ← readFile playerfilename;
    playerdata ← parse text;
    now ← new_Date;
    PlayerData_upsert (getplayerids steamID) (Row now server_id playerdata).

End Plugin.
End DBKoth.

(** ** src/unnamed/part_001 *)

Module Part001.
Section Plugin.
Context `{Host}.

(** Line 115 *)
Definition skipped (playerfile : string) : bool :=
  negb (endsWith playerfile ".json")
  || String.eqb playerfile "ServerSettings.json"
  || String.eqb (toLowerCase playerfile) "serversettings.json".

(** Lines 114-155: the body of the loop over the folder. *)
Definition sync_file (playerfile : string) (processedSteamIDs : gset string)
  : M (gset string) :=
  if skipped playerfile then ret processedSteamIDs
  else
    let playerfileid := playerfileid playerfile in
    let processedSteamIDs := {[playerfileid]} ∪ processedSteamIDs in
    let id := getplayerids playerfileid in
    let save_to_db : M unit :=
      playerdataRaw ← readFile playerfile;
      match JSON_parse playerdataRaw with
      | None => ret tt                                    (* logged; continue *)
      | Some playerdata =>
          now ← new_Date;
          PlayerData_upsert id (Row now server_id playerdata)
      end in
    dbdata ← PlayerData_findOne id;
    lastfileedit ← stat_mtime playerfile;
    (if file_is_newer dbdata lastfileedit then save_to_db
     else match dbdata with
          | Some row =>
              playerdata ← decode (playerdata row);
              writeFile playerfile (JSON_stringify2 playerdata)
          | None => ret tt
          end);;
    ret processedSteamIDs.

Fixpoint for_files (files : list string) (processedSteamIDs : gset string)
  : M (gset string) :=
  match files with
  | [] => ret processedSteamIDs
  | playerfile :: rest =>
      processedSteamIDs ← sync_file playerfile processedSteamIDs;
      for_files rest processedSteamIDs
  end.

(** Lines 161-174 *)
Fixpoint catch_up (dbPlayers : list (string * PlayerData))
    (processedSteamIDs : gset string) : M unit :=
  match dbPlayers with
  | [] => ret tt
  | (steamID, dbPlayer) :: rest =>
      (if negb (is_steamid steamID) || String.eqb (toLowerCase steamID) "serversettings"
       then ret tt                                        (* logged; continue *)
       else if bool_decide (steamID ∈ processedSteamIDs) then ret tt
       else
         playerdata ← decode (playerdata dbPlayer);
         writeFile (steamID +:+ ".json") (JSON_stringify2 playerdata));;
      catch_up rest processedSteamIDs
  end.

(** Lines 110-176, the body of the [try]. *)
Definition sweep (files : list string) : M unit :=
  processedSteamIDs ← for_files files ∅;
  dbPlayers ← PlayerData_findAll;
  catch_up dbPlayers processedSteamIDs.

(** Lines 108-180 *)
Definition syncKothFiles (files : list string) : M unit :=
  try_catch (sweep files) (ret tt).

(** Lines 232-248 *)
Definition onPlayerConnected (steamID : string) : M unit :=
  let playerfilename := getplayerfilename steamID in
  playerdb ← PlayerData_findOne (getplayerids steamID);
  match playerdb with
  | None => ret tt
  | Some row =>
      playerdata ← decode (playerdata row);
      writeFile playerfilename (JSON_stringify2 playerdata)
  end.

(** Lines 250-280 *)
Definition onPlayerDisconnected (steamID : string) : M unit :=
  let playerfilename := getplayerfilename steamID in
  present ← existsSync playerfilename;
  if negb present then ret tt
  else
    playerdataRaw ← readFile playerfilename;
    match JSON_parse playerdataRaw with
    | None => ret tt                                      (* logged; return *)
    | Some playerdata =>
        now ← new_Date;
        PlayerData_upsert (getplayerids steamID) (Row now server_id playerdata)
    end.

End Plugin.
End Part001.

(** ** src/unnamed/part_002 *)

Module Part002.
Section Plugin.
Context `{Host}.

(** Lines 111-121 *)
Definition push_settings : M unit :=
  serverSettings ← PlayerData_findOne "ServerSettings";
  match serverSettings with
  | Some row =>
      serverData ← decode (playerdata row);
      writeFile "ServerSettings.json" (JSON_stringify2 serverData)
  | None => ret tt
  end.

(** Lines 108-193.  Lines 124-187 are lines 111-174 of part_001, word for
    word. *)
Definition syncKothFiles (files : list string) : M unit :=
  try_catch (push_settings;; Part001.sweep files) (ret tt).

(** Lines 245-261 are lines 232-248 of part_001. *)
Definition onPlayerConnected (steamID : string) : M unit :=
  Part001.onPlayerConnected steamID.

(** Lines 263-293 *)
Definition onPlayerDisconnected (steamID : string) : M unit :=
  let playerfilename := getplayerfilename steamID in
  present ← existsSync playerfilename;
  if negb present then ret tt
  else
    playerdataRaw ← readFile playerfilename;
    match JSON_parse playerdataRaw with
    | None => ret tt                                      (* logged; return *)
    | Some playerdata =>
        now ← new_Date;
        PlayerData_upsert (getplayerids steamID) (Row now server_id playerdata)
    end.

End Plugin.
End Part002.

(** ** src/unnamed/part_000 *)

Module Part000.




Section Plugin.
Context `{Host}.

(** Lines 114-142: the [players] array of PlayerList.json, or []. *)
Definition readPlayerList : M (list json) :=
  present ← existsSync "PlayerList.json";
  if negb present then ret []
  else
    try_catch
      (data ← readFile "PlayerList.json";
       if String.eqb data "" then ret []
       else
         jsonData ← parse data;
         match jsonData with
         | JNull => throw                                 (* TypeError *)
         | _ =>
             match js_or (js_get jsonData "players") (JArr []) with
             | JArr steamIDs => ret steamIDs
             | _ => ret []
             end
         end)
      (ret []).

(** Lines 144-160 *)
Definition syncServerSettings : M unit :=
  try_catch
    (serverSettings ← PlayerData_findOne "ServerSettings";
     match serverSettings with
     | Some row =>
         serverData ← decode (playerdata row);
         writeFile "ServerSettings.json" (JSON_stringify2 serverData)
     | None => ret tt
     end)
    (ret tt).

(** Lines 212-221: the counters of the file's [stats] are added to the
    row found for the player; every row of the player is rewritten with
    what the INTEGER columns keep of the three sums. *)
Definition merge_stats (steamID : string) (playerData : json) : M unit :=
  match playerData with
  | JNull => throw                                        (* TypeError *)
  | _ =>
      let fileStats := js_or (js_get playerData "stats") (JObj []) in
      dbStats ← PlayerStats_findOne steamID;
      match dbStats with
      | Some dbStats =>
          match to_INTEGER (js_add (kills dbStats)
                              (js_or (js_get fileStats "kills") (JNum 0))),
                to_INTEGER (js_add (deaths dbStats)
                              (js_or (js_get fileStats "deaths") (JNum 0))),
                to_INTEGER (js_add (captures dbStats)
                              (js_or (js_get fileStats "captures") (JNum 0)))
          with
          | Some k, Some d, Some c =>
              now ← new_Date;
              PlayerStats_update steamID
                (λ r, Stats (player_id r) (playtime_seconds r) k d c now)
          | _, _, _ => throw
          end
      | None => ret tt
      end
  end.

(** Lines 194-230: the body of the loop over the allow-list. *)
Definition sync_player (entry : json) : M unit :=
  let steamID := js_String entry in
  let playerFilePath := steamID +:+ ".json" in
  present ← existsSync playerFilePath;
  if (present : bool) then
    try_catch
      (playerDataRaw ← readFile playerFilePath;
       playerData ← parse playerDataRaw;
       now ← new_Date;
       PlayerData_upsert steamID (Row now server_id playerData);;
       merge_stats steamID playerData)
      (ret tt)
  else ret tt.

Fixpoint for_players (connectedSteamIDs : list json) : M unit :=
  match connectedSteamIDs with
  | [] => ret tt
  | entry :: rest => sync_player entry;; for_players rest
  end.

(** Lines 181-240.  [getPlayerStatsForTelemetry] only reads. *)
Definition syncKothFiles : M unit :=
  try_catch
    (connectedSteamIDs ← readPlayerList;
     (if (50 <=? length connectedSteamIDs)%nat && syncEnabled
      then syncServerSettings
      else ret tt);;
     for_players connectedSteamIDs)
    (ret tt).

(** Lines 306-331 *)
Definition onPlayerConnected (steamID : string) : M unit :=
  let playerfilename := getplayerfilename steamID in
  let id := getplayerids steamID in
  playerdb ← PlayerData_findOne id;
  match playerdb with
  | Some row =>
      playerdata ← decode (playerdata row);
      writeFile playerfilename (JSON_stringify2 playerdata)
  | None => ret tt
  end;;
  now ← new_Date;
  PlayerStats_upsert id now;;
  loginTime ← new_Date;
  session_open id loginTime.

(** Lines 360-375: the playtime of the open session is credited, then the
    session is deleted. *)
Definition close_session (id : string) : M unit :=
  session ← session_get id;
  match session with
  | Some loginTime =>
      now ← new_Date;
      let sessionDuration := ((now - loginTime) / 1000)%Z in
      playerStats ← PlayerStats_findOne id;
      match playerStats with
      | Some playerStats =>
          updated ← new_Date;
          PlayerStats_update id
            (λ r, Stats (player_id r) (playtime_seconds playerStats + sessionDuration)
                        (kills r) (deaths r) (captures r) updated)
      | None => ret tt
      end;;
      session_delete id
  | None => ret tt
  end.

(** Lines 333-376.  The [return] of the [catch] at line 349 leaves the
    handler. *)
Definition onPlayerDisconnected (steamID : string) : M unit :=
  let playerfilename := getplayerfilename steamID in
  let id := getplayerids steamID in
  present ← existsSync playerfilename;
  if (present : bool) then
    playerdataRaw ← readFile playerfilename;
    match JSON_parse playerdataRaw with
    | None => ret tt                                      (* logged; return *)
    | Some playerdata =>
        now ← new_Date;
        PlayerData_upsert id (Row now server_id playerdata);;
        close_session id
    end
  else close_session id.



(** Lines 242-285, up to the timer and the hooks.  [folder_exists] is
    [fs.existsSync(this.kothpath)]; [mkdir_succeeds] tells whether
    [fs.mkdirSync] of line 254 returns or throws.  The result tells whether
    the hooks were created. *)
Definition mount (folder_exists mkdir_succeeds : bool) : M bool :=
  if negb folder_exists && negb mkdir_succeeds then ret false   (* dormant *)
  else
    syncServerSettings;;
    syncKothFiles;;
    ret true.

End Plugin.
End Part000.

(** ** src/OfficialKothDB.js *)

Module OfficialKothDB.
Section Plugin.
Context `{Host}.

(** Lines 103-131 are lines 114-142 of part_000, word for word. *)
Definition readPlayerList : M (list json) := Part000.readPlayerList.

(** Lines 149-177: the body of the loop over the allow-list. *)
Definition sync_player (entry : json) : M unit :=
  let steamID := js_String entry in
  let playerFilePath := steamID +:+ ".json" in
  present ← existsSync playerFilePath;
  if (present : bool) then
    try_catch
      (playerDataRaw ← readFile playerFilePath;
       playerData ← parse playerDataRaw;
       now ← new_Date;
       PlayerData_upsert steamID (Row now server_id playerData))
      (ret tt)
  else ret tt.

Fixpoint for_players (connectedSteamIDs : list json) : M unit :=
  match connectedSteamIDs with
  | [] => ret tt
  | entry :: rest => sync_player entry;; for_players rest
  end.

(** Lines 133-183.  Lines 135-145 are lines 111-121 of part_002. *)
Definition syncKothFiles : M unit :=
  try_catch
    (Part002.push_settings;;
     connectedSteamIDs ← readPlayerList;
     for_players connectedSteamIDs)
    (ret tt).

(** Lines 246-261 are lines 232-248 of part_001; lines 263-293 are lines
    263-293 of part_002. *)
Definition onPlayerConnected (steamID : string) : M unit :=
  Part001.onPlayerConnected steamID.

Definition onPlayerDisconnected (steamID : string) : M unit :=
  Part002.onPlayerDisconnected steamID.

End Plugin.
End OfficialKothDB.
(** ** A concrete host, to run the plugins on examples *)

Module Demo.

Definition quote : string := String (ascii_of_nat 34) EmptyString.

(** A compact printer. *)
Fixpoint print (v : json) : string :=
  match v with
  | JNull => "null"
  | JBool true => "true"
  | JBool false => "false"
  | JNum n => pretty n
  | JStr s => quote +:+ s +:+ quote
  | JArr items =>
      "[" +:+
      (fix go (l : list json) : string :=
         match l with
         | [] => ""
         | [x] => print x
         | x :: l' => print x +:+ "," +:+ go l'
         end) items +:+ "]"
  | JObj fields =>
      "{" +:+
      (fix go (l : list (string * json)) : string :=
         match l with
         | [] => ""
         | [(k, x)] => quote +:+ k +:+ quote +:+ ":" +:+ print x
         | (k, x) :: l' => quote +:+ k +:+ quote +:+ ":" +:+ print x +:+ "," +:+ go l'
         end) fields +:+ "}"
  end.

Definition steamid1 : string := "76561198000000001".
Definition steamid2 : string := "76561198000000002".

Definition hp100 : json := JObj [("hp", JNum 100)].
Definition score5 : json := JObj [("score", JNum 5)].
Definition with_stats (k d c : Z) : json :=
  JObj [("hp", JNum 100);
        ("stats", JObj [("kills", JNum k); ("deaths", JNum d); ("captures", JNum c)])].
Definition player_list (n : nat) : json :=
  JObj [("players", JArr (replicate n (JStr steamid1)))].

(** The documents the parser knows: it inverts [print] on them and rejects
    every other text. *)
Definition documents : list json :=
  [hp100; score5; with_stats 2 1 0; player_list 2; player_list 50; JObj []; JNull].

Definition parse_text (text : string) : option json :=
  find (λ v, String.eqb (print v) text) documents.

(** A text of decimal digits is taken as that integer, any other text is
    rejected. *)
Definition integer_of_text (text : string) : option Z :=
  if all_digits text && negb (String.eqb text "")
  then Some ((fix value (acc : Z) (s : string) : Z :=
                match s with
                | EmptyString => acc
                | String c s' => value (10 * acc + Z.of_nat (nat_of_ascii c) - 48)%Z s'
                end) 0%Z text)
  else None.

Definition to_String (v : json) : string :=
  match v with
  | JStr s => s
  | _ => print v
  end.

#[export] Instance host : Host := {
  JSON_parse := parse_text;
  JSON_stringify := print;
  JSON_stringify2 := print;
  js_String := to_String;
  clock := λ n, (1000000 + 1000 * Z.of_nat n)%Z;
  server_id := 1%Z;
  syncEnabled := true;
  INTEGER_of_number := Some;
  INTEGER_of_number_int32 := λ z _, eq_refl;
  INTEGER_of_text := integer_of_text;
  table_order := map_to_list;
  table_order_perm := λ rows, reflexivity (map_to_list rows)
}.

Definition empty_world : world := World ∅ ∅ [] ∅ 0.

End Demo.

(** ** Vocabulary of the statements *)


(** The [stats] sub-document of a file as the spec types it: each counter is
    an integer or is absent. *)
Record delta : Type := Delta {
  d_kills : option Z;
  d_deaths : option Z;
  d_captures : option Z
}.











Section Vocabulary.
Context `{Host}.


(** The active-entity count a sweep obtains: the length of what
    [readPlayerList] returns. *)
Definition player_count (w : world) : nat :=
  match Part000.readPlayerList w with
  | Returned connectedSteamIDs _ => length connectedSteamIDs
  | Thrown _ => 0
  end.

End Vocabulary.

(** ** Worlds the statements are run on *)


(** A folder with a malformed bad.json and a sound good.json, and a row
    that has no file yet. *)
Definition malformed_world : world :=
  World (<["good.json" := File 5 (Demo.print Demo.hp100)]>
           (<["bad.json" := File 5 "{oops"]> ∅))
        (<[Demo.steamid1 := Row 3 2 Demo.score5]> ∅) [] ∅ 0.

(** A table with the settings row and an empty folder. *)
Definition settings_only_world : world :=
  World ∅ (<["ServerSettings" := Row 3 2 Demo.hp100]> ∅) [] ∅ 0.

(** bob's row is older (lastsave 3) than bob's file (written at 10). *)
Definition newer_file_world : world :=
  World (<["bob.json" := File 10 (Demo.print Demo.score5)]> ∅)
        (<["bob" := Row 3 2 Demo.hp100]> ∅) [] ∅ 0.

(** bob's row is newer (lastsave 30) than bob's file (written at 10). *)
Definition newer_row_world : world :=
  World (<["bob.json" := File 10 (Demo.print Demo.score5)]> ∅)
        (<["bob" := Row 30 2 Demo.hp100]> ∅) [] ∅ 0.

(** bob joined at 1000; bob.json is malformed when bob leaves. *)
Definition open_session_world : world :=
  World (<["bob.json" := File 10 "{oops"]> ∅)
        (<["bob" := Row 3 2 Demo.hp100]> ∅)
        [Stats "bob" 60 4 2 1 1000]
        (<["bob" := 1000%Z]> ∅) 7.

(** The settings row, and an allow-list of [n] players. *)
Definition gate_world (n : nat) : world :=
  World (<["PlayerList.json" := File 10 (Demo.print (Demo.player_list n))]> ∅)
        (<["ServerSettings" := Row 3 2 Demo.hp100]> ∅) [] ∅ 0.


(** * Verification *)

Open Scope nat_scope.

(** ** String lemmas *)

Section StringFacts.

#[local] Arguments String.append !_ _ / : simpl nomatch.

Lemma append_empty_r (s : string) : s +:+ "" = s.
Proof. induction s as [|c s IH]; [done | by simpl; f_equal]. Qed.

Lemma append_length (s t : string) :
  String.length (s +:+ t) = String.length s + String.length t.
Proof. induction s as [|c s IH]; [done | by simpl; f_equal]. Qed.

Lemma length_zero (s : string) : String.length s = 0 → s = "".
Proof. by destruct s. Qed.

Lemma append_assoc (s t u : string) : (s +:+ t) +:+ u = s +:+ (t +:+ u).
Proof. induction s as [|c s IH]; [done | by simpl; f_equal]. Qed.

Lemma append_inj_l (s t u : string) : s +:+ u = t +:+ u → s = t.
Proof.
  revert t. induction s as [|c s IH]; intros [|d t] E; simpl in E.
  - done.
  - apply (f_equal String.length) in E. simpl in E.
    rewrite append_length in E. lia.
  - apply (f_equal String.length) in E. simpl in E.
    rewrite append_length in E. lia.
  - injection E as -> E. f_equal. by apply IH.
Qed.

Lemma prefix_append (sep r : string) : String.prefix sep (sep +:+ r) = true.
Proof.
  induction sep as [|c sep IH]; simpl; [by destruct r |].
  destruct (Ascii.ascii_dec c c); [done | congruence].
Qed.

Lemma prefix_inv (sep s : string) :
  String.prefix sep s = true → ∃ r, s = sep +:+ r.
Proof.
  revert s. induction sep as [|c sep IH]; intros s E; simpl in *.
  - by exists s.
  - destruct s as [|d s]; simpl in E; [done |].
    destruct (Ascii.ascii_dec c d) as [->|]; [| done].
    destruct (IH _ E) as [r ->]. by exists r.
Qed.

Lemma prefix_false_append (sep s : string) :
  String.prefix sep s = false → ∀ r, s ≠ sep +:+ r.
Proof. intros E r ->. by rewrite prefix_append in E. Qed.

Lemma endsWith_unfold (s suffix : string) :
  endsWith s suffix =
  String.eqb s suffix ||
  match s with EmptyString => false | String _ s' => endsWith s' suffix end.
Proof. by destruct s. Qed.


Lemma endsWith_inv (s suffix : string) :
  endsWith s suffix = true → ∃ p, s = p +:+ suffix.
Proof.
  induction s as [|c s IH]; intros E; rewrite endsWith_unfold in E;
    apply orb_true_iff in E as [E|E].
  - apply String.eqb_eq in E as <-. by exists "".
  - done.
  - apply String.eqb_eq in E as <-. by exists "".
  - destruct (IH E) as [p ->]. by exists (String c p).
Qed.

End StringFacts.

(** ** The id derived from a file name *)

Section Derivation.

#[local] Arguments String.append !_ _ / : simpl nomatch.

Lemma split_go_cons (sep : string) (skip : nat) (c : ascii) (s : string) :
  split_go sep skip (String c s) =
  match skip with
  | S k => split_go sep k s
  | O =>
      if String.prefix sep (String c s)
      then "" :: split_go sep (String.length sep - 1) s
      else match split_go sep 0 s with
           | piece :: pieces => String c piece :: pieces
           | [] => [String c ""]
           end
  end.
Proof. done. Qed.

Lemma split_go_nonempty (sep : string) (s : string) (skip : nat) :
  split_go sep skip s ≠ [].
Proof.
  revert skip. induction s as [|c s IH]; intros skip; [done |].
  rewrite split_go_cons. destruct skip; [| apply IH].
  destruct (String.prefix sep (String c s)); [done |].
  destruct (split_go sep 0 s); done.
Qed.

Lemma first_piece_cons (sep : string) (c : ascii) (s : string) :
  hd "" (split sep (String c s)) =
  if String.prefix sep (String c s) then "" else String c (hd "" (split sep s)).
Proof.
  unfold split. rewrite split_go_cons.
  destruct (String.prefix sep (String c s)); [done |].
  pose proof (split_go_nonempty sep s 0).
  destruct (split_go sep 0 s); done.
Qed.

(** No occurrence of the separator starts before the end of the first piece. *)
Lemma first_piece_earliest (sep s p r : string) :
  s = p +:+ sep +:+ r →
  (String.length (hd "" (split sep s)) ≤ String.length p)%nat.
Proof.
  revert p. induction s as [|c s IH]; intros p E.
  - simpl. lia.
  - rewrite first_piece_cons.
    destruct (String.prefix sep (String c s)) eqn:P; [simpl; lia |].
    destruct p as [|d p].
    + simpl in E. by apply prefix_false_append in E.
    + simpl in E. injection E as -> E. simpl. apply IH in E. lia.
Qed.

(** If the separator occurs, the first piece is followed by it. *)
Lemma first_piece_followed (sep s p r : string) :
  s = p +:+ sep +:+ r → ∃ r', s = hd "" (split sep s) +:+ sep +:+ r'.
Proof.
  revert p. induction s as [|c s IH]; intros p E.
  - destruct p; simpl in E; [| done]. exists r. done.
  - rewrite first_piece_cons.
    destruct (String.prefix sep (String c s)) eqn:P.
    + apply prefix_inv in P as [r' ->]. by exists r'.
    + destruct p as [|d p]; simpl in E.
      * by apply prefix_false_append in E.
      * injection E as -> E. destruct (IH _ E) as [r' E'].
        exists r'. simpl. by rewrite <- E'.
Qed.

Lemma occurrences_cons (sep : string) (c : ascii) (s : string) :
  occurrences sep (String c s) =
  (if String.prefix sep (String c s) then 1 else 0) + occurrences sep s.
Proof. done. Qed.

Lemma occurrences_zero (sep s p r : string) :
  occurrences sep s = 0 → s ≠ p +:+ sep +:+ r.
Proof.
  revert p. induction s as [|c s IH]; intros p E Hs.
  - destruct p; simpl in Hs; [| done].
    destruct sep; simpl in *; done.
  - rewrite occurrences_cons in E.
    destruct (String.prefix sep (String c s)) eqn:P; [lia |].
    destruct p as [|d p]; simpl in Hs.
    + by apply prefix_false_append in Hs.
    + injection Hs as -> Hs. by eapply IH.
Qed.

Lemma occurrences_pos (sep s : string) :
  occurrences sep s ≠ 0 → ∃ p r, s = p +:+ sep +:+ r.
Proof.
  induction s as [|c s IH]; intros E.
  - destruct sep; [by exists "", "" | done].
  - rewrite occurrences_cons in E.
    destruct (String.prefix sep (String c s)) eqn:P.
    + apply prefix_inv in P as [r Er]. by exists "", r.
    + destruct (IH E) as (p & r & ->). by exists (String c p), r.
Qed.

(** With the separator at the very end: it occurs exactly once if and only
    if every occurrence is that one. *)
Lemma occurrences_one (sep s p0 : string) :
  s = p0 +:+ sep →
  occurrences sep s = 1 ↔ (∀ p r, s = p +:+ sep +:+ r → r = "").
Proof.
  revert p0. induction s as [|c s IH]; intros p0 E0.
  - destruct p0; simpl in E0; [| done]. subst sep. split; [| done].
    intros _ p r E. by destruct p, r.
  - rewrite occurrences_cons.
    destruct (String.prefix sep (String c s)) eqn:P.
    + split.
      * intros C p r E. assert (occurrences sep s = 0) as Z by lia.
        destruct p as [|d p]; simpl in E.
        -- destruct p0 as [|d0 p0]; simpl in E0.
           ++ rewrite E0 in E. apply (f_equal String.length) in E.
              rewrite append_length in E. apply length_zero. lia.
           ++ injection E0 as -> E0. rewrite <- (append_empty_r sep) in E0.
              by apply occurrences_zero in E0.
        -- injection E as -> E. by apply occurrences_zero in E.
      * intros A. destruct (Nat.eq_dec (occurrences sep s) 0) as [-> | Hne]; [done |].
        exfalso. apply occurrences_pos in Hne as (p & r & E).
        assert (r = "") as -> by (apply (A (String c p) r); simpl; by rewrite E).
        apply prefix_inv in P as [r0 Er0].
        assert (r0 = "") as -> by (by apply (A "" r0)).
        rewrite E in Er0. apply (f_equal String.length) in Er0.
        simpl in Er0. rewrite !append_length in Er0. simpl in Er0. lia.
    + destruct p0 as [|d0 p0]; simpl in E0.
      { rewrite <- (append_empty_r sep) in E0. by apply prefix_false_append in E0. }
      injection E0 as <- E0. rewrite (IH _ E0). split.
      * intros A p r E. destruct p as [|d p]; simpl in E.
        -- by apply prefix_false_append in E.
        -- injection E as -> E. by eapply A.
      * intros A p r E. apply (A (String c p) r). simpl. by rewrite E.
Qed.

Lemma DBKoth_sync_file_processed `{Host} (playerfile : string) (P : gset string) (w : world) :
  endsWith playerfile ".json" = true →
  match DBKoth.sync_file playerfile P w with
  | Returned P' _ => P' = {[playerfileid playerfile]} ∪ P
  | Thrown _ => True
  end.
Proof.
  intros E. unfold DBKoth.sync_file. rewrite E. cbn.
  unfold mbind, M_bind, bind, PlayerData_findOne, stat_mtime.
  destruct (fs w !! playerfile); [| done].
  match goal with |- context [?m w] => destruct (m w) end; done.
Qed.

Lemma Part001_sync_file_processed `{Host} (playerfile : string) (P : gset string) (w : world) :
  Part001.skipped playerfile = false →
  match Part001.sync_file playerfile P w with
  | Returned P' _ => P' = {[playerfileid playerfile]} ∪ P
  | Thrown _ => True
  end.
Proof.
  intros E. unfold Part001.sync_file. rewrite E. cbn.
  unfold mbind, M_bind, bind, PlayerData_findOne, stat_mtime.
  destruct (fs w !! playerfile); [| done].
  match goal with |- context [?m w] => destruct (m w) end; done.
Qed.

(** C10. A directory entry that ends in ".json" is processed under the part
    of its name before the FIRST ".json": the name is that id, then ".json",
    then a rest, and no ".json" starts earlier.  In the sweeps of DBKoth.js
    and of part_001 (whose loop part_002 shares) that id is the key of the
    row that is looked up, the key of the row that is written, and the id
    recorded as processed, while the file that is read or written is the
    entry itself: the step of the loop is given in full, in terms of the
    table at [playerfileid playerfile] only.  So "a.json.json" and
    "a.json.b.json" are both processed as "a", and the id followed by
    ".json" gives the name back exactly when ".json" occurs once in it (at
    the end, since the name ends with it). *)
Theorem playerfileid_first_occurrence `{Host} (playerfile : string) :
  endsWith playerfile ".json" = true →
  (∃ rest, playerfile = playerfileid playerfile +:+ ".json" +:+ rest ∧
     ∀ p r, playerfile = p +:+ ".json" +:+ r →
            (String.length (playerfileid playerfile) ≤ String.length p)%nat) ∧
  (∀ P w,
     DBKoth.sync_file playerfile P w =
     match fs w !! playerfile with
     | None => Thrown w
     | Some fl =>
         let processed := {[playerfileid playerfile]} ∪ P in
         let saved :=
           match JSON_parse (content fl) with
           | Some parsed =>
               Returned processed
                 (set_db (<[playerfileid playerfile :=
                              Row (clock (tick w)) server_id parsed]> (db w))
                         (next_tick w))
           | None => Thrown (next_tick w)
           end in
         match db w !! playerfileid playerfile with
         | None => saved
         | Some row =>
             if (lastsave row <? mtime fl)%Z then saved
             else Returned processed
                    (next_tick
                       (set_fs (<[playerfile :=
                                    File (clock (tick w))
                                         (JSON_stringify (playerdata row))]> (fs w))
                               w))
         end
     end) ∧
  (∀ P w, Part001.skipped playerfile = false →
     Part001.sync_file playerfile P w =
     match fs w !! playerfile with
     | None => Thrown w
     | Some fl =>
         let processed := {[playerfileid playerfile]} ∪ P in
         let saved :=
           match JSON_parse (content fl) with
           | Some parsed =>
               Returned processed
                 (set_db (<[playerfileid playerfile :=
                              Row (clock (tick w)) server_id parsed]> (db w))
                         (next_tick w))
           | None => Returned processed w
           end in
         match db w !! playerfileid playerfile with
         | None => saved
         | Some row =>
             if (lastsave row <? mtime fl)%Z then saved
             else match decode (playerdata row) w with
                  | Returned data _ =>
                      Returned processed
                        (next_tick
                           (set_fs (<[playerfile :=
                                        File (clock (tick w)) (JSON_stringify2 data)]>
                                      (fs w))
                                   w))
                  | Thrown _ => Thrown w
                  end
         end
     end) ∧
  playerfileid "a.json.json" = "a" ∧
  playerfileid "a.json.b.json" = "a" ∧
  (getplayerfilename (playerfileid playerfile) = playerfile ↔
   occurrences ".json" playerfile = 1).
Proof.
  intros E. pose proof (endsWith_inv _ _ E) as [p0 E0].
  assert (playerfile = p0 +:+ ".json" +:+ "") as E1 by done.
  destruct (first_piece_followed _ _ _ _ E1) as [rest Hrest].
  split; [| split; [| split; [| split; [| split]]]].
  - exists rest. split; [done |]. intros p r. apply first_piece_earliest.
  - intros P w. unfold DBKoth.sync_file, DBKoth.save_to_db. rewrite E.
    cbn [negb]. cbn zeta.
    unfold mbind, M_bind, bind, mret, M_ret, ret, throw, PlayerData_findOne,
      stat_mtime, readFile, new_Date, parse, PlayerData_upsert, writeFile,
      getplayerids, file_is_newer.
    destruct (fs w !! playerfile) as [fl|] eqn:F; [| done].
    destruct (db w !! playerfileid playerfile) as [row|];
      [destruct (lastsave row <? mtime fl)%Z |];
      rewrite ?F; try reflexivity;
      destruct (JSON_parse (content fl)); reflexivity.
  - intros P w S. unfold Part001.sync_file. rewrite S. cbn zeta.
    unfold mbind, M_bind, bind, mret, M_ret, ret, throw, PlayerData_findOne,
      stat_mtime, readFile, new_Date, PlayerData_upsert, writeFile,
      getplayerids, file_is_newer.
    destruct (fs w !! playerfile) as [fl|] eqn:F; [| done].
    destruct (db w !! playerfileid playerfile) as [row|];
      [destruct (lastsave row <? mtime fl)%Z |];
      rewrite ?F; try (destruct (JSON_parse (content fl)); reflexivity).
    unfold decode, parse. destruct (playerdata row) as [| | |text| |];
      try reflexivity.
    destruct (JSON_parse text); reflexivity.
  - done.
  - done.
  - rewrite (occurrences_one _ _ _ E0). unfold getplayerfilename. split.
    + intros G p r Ep. pose proof (first_piece_earliest _ _ _ _ Ep) as L.
      fold (playerfileid playerfile) in L.
      rewrite <- G in Ep at 1. apply (f_equal String.length) in Ep.
      rewrite !append_length in Ep. apply length_zero. lia.
    + intros A. fold (playerfileid playerfile) in Hrest.
      rewrite (A _ _ Hrest) in Hrest. by rewrite Hrest at 2.
Qed.

Lemma playerfileid_first_occurrence_witness :
  endsWith "a.json.b.json" ".json" = true ∧
  ¬ getplayerfilename (playerfileid "a.json.b.json") = "a.json.b.json".
Proof.
  split; [done |].
  destruct (@playerfileid_first_occurrence Demo.host "a.json.b.json" eq_refl)
    as (_ & _ & _ & _ & _ & [G _]).
  intros E. specialize (G E). vm_compute in G. discriminate G.
Defined.

End Derivation.

(** ** The sweep of DBKoth.js *)

Ltac run_monad :=
  unfold decode, parse in *;
  unfold mbind, M_bind, bind, mret, M_ret, ret, throw, try_catch, new_Date,
    stat_mtime, readFile, writeFile, existsSync,
    PlayerData_findOne, PlayerData_upsert, PlayerData_findAll,
    PlayerStats_findOne, PlayerStats_update, PlayerStats_upsert,
    session_get, session_open, session_delete, getplayerids in *;
  cbn beta in *.

Ltac world_simpl :=
  cbn [fs db stats sessions tick set_fs set_db set_stats set_sessions next_tick
       mtime content lastsave serversave playerdata final] in *.

Ltac conj := repeat match goal with |- _ ∧ _ => split end.

Section DBKothSweep.
Context `{Host}.

(** What one turn of the loop does to an entity file that is there. *)
Lemma DBKoth_sync_file_step (playerfile : string) (fl : file) (P : gset string) (w : world) :
  endsWith playerfile ".json" = true →
  fs w !! playerfile = Some fl →
  let id := playerfileid playerfile in
  DBKoth.sync_file playerfile P w =
  if file_is_newer (db w !! id) (mtime fl) then
    match JSON_parse (content fl) with
    | Some parsed =>
        Returned ({[id]} ∪ P)
          (set_db (<[id := Row (clock (tick w)) server_id parsed]> (db w)) (next_tick w))
    | None => Thrown (next_tick w)
    end
  else
    match db w !! id with
    | Some row =>
        Returned ({[id]} ∪ P)
          (next_tick (set_fs (<[playerfile := File (clock (tick w))
                                               (JSON_stringify (playerdata row))]> (fs w)) w))
    | None => Thrown w
    end.
Proof.
  intros E F id. unfold DBKoth.sync_file, DBKoth.save_to_db. rewrite E. cbn [negb].
  run_monad. rewrite F. fold id.
  destruct (file_is_newer (db w !! id) (mtime fl)).
  - world_simpl. rewrite F. destruct (JSON_parse (content fl)); done.
  - destruct (db w !! id); done.
Qed.

Lemma DBKoth_sync_file_skip (playerfile : string) (P : gset string) (w : world) :
  endsWith playerfile ".json" = false →
  DBKoth.sync_file playerfile P w = Returned P w.
Proof. intros E. unfold DBKoth.sync_file. by rewrite E. Qed.

Lemma DBKoth_sync_file_missing (playerfile : string) (P : gset string) (w : world) :
  endsWith playerfile ".json" = true →
  fs w !! playerfile = None →
  DBKoth.sync_file playerfile P w = Thrown w.
Proof.
  intros E F. unfold DBKoth.sync_file. rewrite E. cbn [negb].
  run_monad. by rewrite F.
Qed.

(** One turn of the loop touches one file and one row at most. *)
Lemma DBKoth_sync_file_frame (playerfile : string) (P P' : gset string) (w w' : world) :
  DBKoth.sync_file playerfile P w = Returned P' w' →
  P ⊆ P' ∧ tick w ≤ tick w' ∧
  (endsWith playerfile ".json" = true → playerfileid playerfile ∈ P') ∧
  (∀ name, name ≠ playerfile → fs w' !! name = fs w !! name) ∧
  (∀ id, (endsWith playerfile ".json" = true → id ≠ playerfileid playerfile) →
         db w' !! id = db w !! id).
Proof.
  intros R. destruct (endsWith playerfile ".json") eqn:E.
  2: { rewrite DBKoth_sync_file_skip in R by done. by injection R as <- <-. }
  destruct (fs w !! playerfile) as [fl|] eqn:F.
  2: { by rewrite DBKoth_sync_file_missing in R. }
  rewrite (DBKoth_sync_file_step _ fl) in R by done. cbn zeta in R.
  destruct (file_is_newer _ _).
  - destruct (JSON_parse (content fl)); [| done]. injection R as <- <-. world_simpl.
    conj; [set_solver | lia | set_solver | done |].
    intros id Hid. rewrite lookup_insert_ne; [done |]. intros E'. by apply Hid.
  - destruct (db w !! playerfileid playerfile); [| done]. injection R as <- <-.
    world_simpl. conj; [set_solver | lia | set_solver | | done].
    intros name Hne. by rewrite lookup_insert_ne.
Qed.

Lemma DBKoth_for_files_app (l1 l2 : list string) (P : gset string) (w : world) :
  DBKoth.for_files (l1 ++ l2) P w =
  match DBKoth.for_files l1 P w with
  | Returned P1 w1 => DBKoth.for_files l2 P1 w1
  | Thrown w1 => Thrown w1
  end.
Proof.
  revert P w. induction l1 as [|f l1 IH]; intros P w; [done |].
  cbn [app DBKoth.for_files]. run_monad.
  destruct (DBKoth.sync_file f P w); [apply IH | done].
Qed.

Lemma DBKoth_for_files_frame (files : list string) (P P' : gset string) (w w' : world) :
  DBKoth.for_files files P w = Returned P' w' →
  P ⊆ P' ∧ tick w ≤ tick w' ∧
  (∀ name, name ∉ files → fs w' !! name = fs w !! name) ∧
  (∀ id, (∀ f, f ∈ files → endsWith f ".json" = true → id ≠ playerfileid f) →
         db w' !! id = db w !! id).
Proof.
  revert P w. induction files as [|f files IH]; intros P w R.
  - injection R as <- <-. done.
  - cbn [DBKoth.for_files] in R. run_monad.
    destruct (DBKoth.sync_file f P w) as [P1 w1|] eqn:S1; [| done].
    apply DBKoth_sync_file_frame in S1 as (HP & Ht & _ & Hfs & Hdb).
    apply IH in R as (HP' & Ht' & Hfs' & Hdb').
    conj; [set_solver | lia | |].
    + intros name Hn. rewrite Hfs', Hfs; [done | |]; set_solver.
    + intros id Hid. rewrite Hdb', Hdb; [done | |].
      * intros E. apply Hid; [set_solver | done].
      * intros f' Hf'. apply Hid. set_solver.
Qed.


(** If every entity file of the listing is there and holds JSON, the loop
    over the folder completes. *)
Lemma DBKoth_for_files_returns (files : list string) (P : gset string) (w : world) :
  NoDup files →
  (∀ f, f ∈ files → endsWith f ".json" = true →
        ∃ fl, fs w !! f = Some fl ∧ is_Some (JSON_parse (content fl))) →
  ∃ P' w', DBKoth.for_files files P w = Returned P' w'.
Proof.
  revert P w. induction files as [|f files IH]; intros P w ND V.
  - by exists P, w.
  - apply NoDup_cons in ND as [Hf ND]. cbn [DBKoth.for_files]. run_monad.
    assert (∃ P1 w1, DBKoth.sync_file f P w = Returned P1 w1) as (P1 & w1 & S1).
    { destruct (endsWith f ".json") eqn:E.
      - destruct (V f) as (fl & F & [parsed J]); [set_solver | done |].
        rewrite (DBKoth_sync_file_step _ fl) by done. cbn zeta. rewrite J.
        destruct (file_is_newer _ _) eqn:N; [by eexists _, _ |].
        destruct (db w !! playerfileid f); [by eexists _, _ | done].
      - rewrite DBKoth_sync_file_skip by done. by eexists _, _. }
    rewrite S1. apply IH; [done |]. intros f' Hf' E'.
    apply DBKoth_sync_file_frame in S1 as (_ & _ & _ & Hfs & _).
    rewrite Hfs by set_solver. apply V; [set_solver | done].
Qed.




End DBKothSweep.


(** ** A malformed entity file *)

Section Malformed.
Context `{Host}.

(** C2, on src/DBKoth.js. When the loop reaches an entity file that is to be
    pushed to the table (no row, or the file is newer) and whose text is
    not JSON, [JSON.parse] at line 105 throws to the [catch] of line 132:
    the sweep ends there.  The files listed after it are not looked at and
    the catch-up pass does not run; the only trace is the clock reading of
    line 103. *)
Theorem DBKoth_malformed_file_aborts_sweep (before after : list string)
    (bad : string) (fl : file) (w w1 : world) (P1 : gset string) :
  DBKoth.for_files before ∅ w = Returned P1 w1 →
  endsWith bad ".json" = true →
  fs w1 !! bad = Some fl →
  file_is_newer (db w1 !! playerfileid bad) (mtime fl) = true →
  JSON_parse (content fl) = None →
  DBKoth.syncKothFiles (before ++ bad :: after) w = Returned tt (next_tick w1).
Proof.
  intros R1 E F N J. unfold DBKoth.syncKothFiles, DBKoth.sweep. run_monad.
  rewrite DBKoth_for_files_app, R1. cbn [DBKoth.for_files]. run_monad.
  rewrite (DBKoth_sync_file_step _ fl) by done. cbn zeta. by rewrite N, J.
Qed.

Lemma Part001_for_files_app (l1 l2 : list string) (P : gset string) (w : world) :
  Part001.for_files (l1 ++ l2) P w =
  match Part001.for_files l1 P w with
  | Returned P1 w1 => Part001.for_files l2 P1 w1
  | Thrown w1 => Thrown w1
  end.
Proof.
  revert P w. induction l1 as [|f l1 IH]; intros P w; [done |].
  cbn [app Part001.for_files]. run_monad.
  destruct (Part001.sync_file f P w); [apply IH | done].
Qed.

(** In part_001 the same file is logged and skipped: the turn of the loop
    changes nothing but the set of processed ids. *)
Lemma Part001_sync_file_malformed (bad : string) (fl : file) (P : gset string) (w : world) :
  Part001.skipped bad = false →
  fs w !! bad = Some fl →
  file_is_newer (db w !! playerfileid bad) (mtime fl) = true →
  JSON_parse (content fl) = None →
  Part001.sync_file bad P w = Returned ({[playerfileid bad]} ∪ P) w.
Proof.
  intros E F N J. unfold Part001.sync_file. rewrite E. run_monad.
  rewrite F, N. world_simpl. by rewrite F, J.
Qed.

(** ... and the sweep of part_001 goes on with the files after it and with
    the catch-up pass. *)
Lemma Part001_malformed_file_skipped (before after : list string)
    (bad : string) (fl : file) (w w1 : world) (P1 : gset string) :
  Part001.for_files before ∅ w = Returned P1 w1 →
  Part001.skipped bad = false →
  fs w1 !! bad = Some fl →
  file_is_newer (db w1 !! playerfileid bad) (mtime fl) = true →
  JSON_parse (content fl) = None →
  Part001.sweep (before ++ bad :: after) w =
  (processedSteamIDs ← Part001.for_files after ({[playerfileid bad]} ∪ P1);
   dbPlayers ← PlayerData_findAll;
   Part001.catch_up dbPlayers processedSteamIDs) w1.
Proof.
  intros R1 E F N J. unfold Part001.sweep. run_monad.
  rewrite Part001_for_files_app, R1. cbn [Part001.for_files]. run_monad.
  by rewrite (Part001_sync_file_malformed _ fl).
Qed.

End Malformed.

Lemma DBKoth_malformed_file_aborts_sweep_witness :
  (db (final (@DBKoth.syncKothFiles Demo.host ["bad.json"; "good.json"] malformed_world))
     !! "good" = None ∧
   fs (final (@DBKoth.syncKothFiles Demo.host ["bad.json"; "good.json"] malformed_world))
     !! getplayerfilename Demo.steamid1 = None) ∧
  (db (final (@Part001.syncKothFiles Demo.host ["bad.json"; "good.json"] malformed_world))
     !! "good" = Some (Row (@clock Demo.host 0) 1 Demo.hp100) ∧
   fs (final (@Part001.syncKothFiles Demo.host ["bad.json"; "good.json"] malformed_world))
     !! getplayerfilename Demo.steamid1
     = Some (File (@clock Demo.host 1) (Demo.print Demo.score5))).
Proof.
  split.
  - pose proof (@DBKoth_malformed_file_aborts_sweep Demo.host [] ["good.json"] "bad.json"
                  (File 5 "{oops") malformed_world malformed_world ∅) as R.
    cbn [app] in R. rewrite R; [| done | by vm_compute..].
    split; by vm_compute.
  - split; by vm_compute.
Defined.

(** ** The rows [findAll] lists *)

Lemma table_order_NoDup `{Host} (rows : gmap string PlayerData) :
  NoDup (table_order rows).*1.
Proof.
  rewrite (fmap_Permutation fst _ _ (table_order_perm rows)).
  apply NoDup_fst_map_to_list.
Qed.

Lemma table_order_elem `{Host} (rows : gmap string PlayerData) (id : string)
    (row : PlayerData) :
  (id, row) ∈ table_order rows ↔ rows !! id = Some row.
Proof. rewrite (table_order_perm rows). apply elem_of_map_to_list. Qed.

(** ** The catch-up pass *)

Section CatchUp.
Context `{Host}.

Lemma getplayerfilename_inj (a b : string) :
  getplayerfilename a = getplayerfilename b → a = b.
Proof. apply append_inj_l. Qed.

(** Only ids derived from listed entity files are marked as processed. *)
Lemma DBKoth_for_files_processed (files : list string) (P P' : gset string) (w w' : world) :
  DBKoth.for_files files P w = Returned P' w' →
  ∀ id, id ∈ P' →
    id ∈ P ∨ ∃ f, f ∈ files ∧ endsWith f ".json" = true ∧ id = playerfileid f.
Proof.
  revert P w. induction files as [|f files IH]; intros P w R id Hid.
  - injection R as <- <-. by left.
  - cbn [DBKoth.for_files] in R. run_monad.
    destruct (DBKoth.sync_file f P w) as [P1 w1|] eqn:S1; [| done].
    destruct (IH _ _ R id Hid) as [H1 | (f' & Hf' & E' & ->)].
    + destruct (endsWith f ".json") eqn:E.
      * pose proof (DBKoth_sync_file_processed f P w E) as S2. rewrite S1 in S2.
        subst P1. apply elem_of_union in H1 as [H1 | H1]; [| by left].
        right. exists f. set_solver.
      * rewrite DBKoth_sync_file_skip in S1 by done. injection S1 as <- <-. by left.
    + right. exists f'. set_solver.
Qed.

Lemma DBKoth_catch_up_absent (rows : list (string * PlayerData)) (P : gset string)
    (w : world) (id : string) :
  id ∉ rows.*1 →
  ∃ w', DBKoth.catch_up rows P w = Returned tt w' ∧ tick w ≤ tick w' ∧
        fs w' !! getplayerfilename id = fs w !! getplayerfilename id.
Proof.
  revert w. induction rows as [|[steamID row] rows IH]; intros w Hid.
  - by exists w.
  - cbn [DBKoth.catch_up]. run_monad.
    assert (id ≠ steamID ∧ id ∉ rows.*1) as [Hne Hid'] by set_solver.
    case_bool_decide.
    + by apply IH.
    + match goal with |- context [DBKoth.catch_up rows P ?w1] =>
        destruct (IH w1 Hid') as (w' & R & Ht & Hfs) end.
      exists w'. world_simpl. conj; [done | lia |].
      rewrite Hfs. world_simpl. rewrite lookup_insert_ne; [done |].
      intros E. by apply getplayerfilename_inj in E.
Qed.

(** Every row whose id was not processed is written to "<id>.json",
    whatever the id looks like. *)
Lemma DBKoth_catch_up_writes (rows : list (string * PlayerData)) (P : gset string)
    (w : world) (id : string) (row : PlayerData) :
  NoDup rows.*1 → (id, row) ∈ rows → id ∉ P →
  ∃ w' t, DBKoth.catch_up rows P w = Returned tt w' ∧
          tick w ≤ t < tick w' ∧
          fs w' !! getplayerfilename id
            = Some (File (clock t) (JSON_stringify (playerdata row))).
Proof.
  revert w. induction rows as [|[steamID row'] rows IH]; intros w ND Hin HP.
  - by apply elem_of_nil in Hin.
  - cbn [fmap list_fmap fst] in ND. apply NoDup_cons in ND as [Hhd ND].
    cbn [DBKoth.catch_up]. run_monad.
    apply elem_of_cons in Hin as [Heq | Hin].
    + injection Heq as <- <-. rewrite bool_decide_eq_false_2 by done.
      match goal with |- context [DBKoth.catch_up rows P ?w1] =>
        destruct (DBKoth_catch_up_absent rows P w1 id Hhd) as (w' & R & Ht & Hfs) end.
      exists w', (tick w). world_simpl. conj; [done | lia | lia |].
      rewrite Hfs. world_simpl. by rewrite lookup_insert_eq.
    + case_bool_decide.
      * by apply IH.
      * match goal with |- context [DBKoth.catch_up rows P ?w1] =>
          destruct (IH w1 ND Hin HP) as (w' & t & R & Ht & Hfs) end.
        exists w', t. world_simpl. conj; [done | lia | lia | done].
Qed.

(** C3, on src/DBKoth.js.  The catch-up pass of lines 118-129 has no test
    on the id: a row whose id no listed entity file derives is written to
    "<id>.json" -- be the id "ServerSettings" or anything else that is no
    17-digit number. *)
Theorem DBKoth_catch_up_materializes_any_id (files : list string) (w : world)
    (id : string) (row : PlayerData) :
  db w !! id = Some row →
  (∀ f, f ∈ files → endsWith f ".json" = true → id ≠ playerfileid f) →
  (∃ P w1, DBKoth.for_files files ∅ w = Returned P w1) →
  ∃ w' t, DBKoth.syncKothFiles files w = Returned tt w' ∧
          fs w' !! getplayerfilename id
            = Some (File (clock t) (JSON_stringify (playerdata row))).
Proof.
  intros D Hfiles (P & w1 & R1).
  unfold DBKoth.syncKothFiles, DBKoth.sweep. run_monad. rewrite R1.
  pose proof (DBKoth_for_files_processed _ _ _ _ _ R1) as HP.
  apply DBKoth_for_files_frame in R1 as (_ & _ & _ & Hdb).
  destruct (DBKoth_catch_up_writes (table_order (db w1)) P w1 id row)
    as (w' & t & R & _ & F).
  - apply table_order_NoDup.
  - apply table_order_elem. by rewrite Hdb.
  - intros Hin. destruct (HP id Hin) as [? | (f & Hf & E & Eid)]; [set_solver |].
    by apply (Hfiles f).
  - exists w', t. by rewrite R.
Qed.

(** Decoding reads nothing and changes nothing. *)
Lemma decode_cases (v : json) (w : world) :
  (∃ data, decode v w = Returned data w) ∨ decode v w = Thrown w.
Proof.
  unfold decode, parse. destruct v as [| | |text| |]; try (left; by eexists).
  destruct (JSON_parse text); [left; by eexists | by right].
Qed.

(** In part_001 the pass of lines 161-174 writes no file for a row whose id
    is not a 17-digit number or is "ServerSettings" in any casing, however
    the pass ends. *)
Lemma Part001_catch_up_skips_invalid (rows : list (string * PlayerData))
    (P : gset string) (w : world) (id : string) :
  is_steamid id = false ∨ toLowerCase id = "serversettings" →
  fs (final (Part001.catch_up rows P w)) !! getplayerfilename id
    = fs w !! getplayerfilename id.
Proof.
  intros Hid. revert w. induction rows as [|[steamID row] rows IH]; intros w; [done |].
  cbn [Part001.catch_up].
  destruct (negb (is_steamid steamID)
            || String.eqb (toLowerCase steamID) "serversettings") eqn:Skip.
  { unfold mbind, M_bind, bind, mret, M_ret, ret. apply IH. }
  case_bool_decide; [unfold mbind, M_bind, bind, mret, M_ret, ret; apply IH |].
  assert (steamID ≠ id) as Hne.
  { intros ->. apply orb_false_iff in Skip as [S1 S2].
    apply negb_false_iff in S1. apply String.eqb_neq in S2.
    destruct Hid; congruence. }
  unfold mbind at 1 2, M_bind at 1 2, bind at 1 2.
  destruct (decode_cases (playerdata row) w) as [[data ->] | ->]; [| done].
  unfold writeFile. rewrite IH. world_simpl.
  rewrite lookup_insert_ne; [done |].
  intros E. by apply getplayerfilename_inj in E.
Qed.

End CatchUp.

Lemma DBKoth_catch_up_materializes_any_id_witness :
  is_steamid "ServerSettings" = false ∧
  (∃ w' t, @DBKoth.syncKothFiles Demo.host [] settings_only_world = Returned tt w' ∧
           fs w' !! "ServerSettings.json"
             = Some (File (@clock Demo.host t) (Demo.print Demo.hp100))) ∧
  fs (final (@Part001.syncKothFiles Demo.host [] settings_only_world))
    !! "ServerSettings.json" = None.
Proof.
  split; [done |]. split; [| by vm_compute].
  apply (@DBKoth_catch_up_materializes_any_id Demo.host [] settings_only_world
           "ServerSettings" (Row 3 2 Demo.hp100)).
  - by vm_compute.
  - intros f Hf. by apply elem_of_nil in Hf.
  - by eexists _, _.
Defined.

(** ** Arrival and departure *)

Section Lifecycle.
Context `{Host}.

(** C5, as amended.  Arrival, in src/DBKoth.js and in part_000.  If the
    table has a row for the player, the player's file is overwritten with
    the serialized playerdata of the row and stamped with the current time:
    the file that was there, and its modification time, play no part.  In
    DBKoth.js this is so for every row; in part_000 it is so whenever the
    playerdata, if it is stored as text, parses as JSON (it is the decoded
    document that is written).  If the table has no row, the folder is left
    as it was: DBKoth.js returns, part_000 ends on the rejected insert into
    the stats table. *)
Theorem arrival_overwrites_file (steamID : string) (w : world) :
  (∀ row, db w !! steamID = Some row →
     DBKoth.onPlayerConnected steamID w =
       Returned tt
         (next_tick (set_fs (<[getplayerfilename steamID :=
                                 File (clock (tick w)) (JSON_stringify (playerdata row))]>
                               (fs w)) w)) ∧
     ∀ data, decode (playerdata row) w = Returned data w →
       ∃ w', Part000.onPlayerConnected steamID w = Returned tt w' ∧
             fs w' = <[getplayerfilename steamID :=
                         File (clock (tick w)) (JSON_stringify2 data)]> (fs w)) ∧
  (db w !! steamID = None →
     DBKoth.onPlayerConnected steamID w = Returned tt w ∧
     Part000.onPlayerConnected steamID w = Thrown (next_tick w) ∧
     fs (final (Part000.onPlayerConnected steamID w)) = fs w).
Proof.
  split.
  - intros row D. split.
    + unfold DBKoth.onPlayerConnected. run_monad. by rewrite D.
    + intros data Dec. unfold Part000.onPlayerConnected.
      unfold mbind, M_bind, bind, PlayerData_findOne, getplayerids.
      rewrite D, Dec. run_monad. world_simpl. rewrite D. by eexists.
  - intros D.
    assert (Part000.onPlayerConnected steamID w = Thrown (next_tick w)) as R.
    { unfold Part000.onPlayerConnected. run_monad. rewrite D. world_simpl.
      by rewrite D. }
    conj; [| done | by rewrite R].
    unfold DBKoth.onPlayerConnected. run_monad. by rewrite D.
Qed.

(** C6. Departure, in src/DBKoth.js and in part_002.  If the player's file
    is there and its text parses, the parsed document is upserted as the
    row of the player, with lastsave the current time: the row that was
    there, and its lastsave, play no part.  If the file is not there the
    handler returns and nothing has changed. *)
Theorem departure_overwrites_row (steamID : string) (w : world) :
  (∀ fl parsed,
     fs w !! getplayerfilename steamID = Some fl →
     JSON_parse (content fl) = Some parsed →
     DBKoth.onPlayerDisconnected steamID w =
       Returned tt (set_db (<[steamID := Row (clock (tick w)) server_id parsed]> (db w))
                      (next_tick w)) ∧
     Part002.onPlayerDisconnected steamID w =
       Returned tt (set_db (<[steamID := Row (clock (tick w)) server_id parsed]> (db w))
                      (next_tick w))) ∧
  (fs w !! getplayerfilename steamID = None →
     DBKoth.onPlayerDisconnected steamID w = Returned tt w ∧
     Part002.onPlayerDisconnected steamID w = Returned tt w).
Proof.
  split.
  - intros fl parsed F J.
    unfold DBKoth.onPlayerDisconnected, Part002.onPlayerDisconnected. run_monad.
    rewrite F. rewrite bool_decide_eq_true_2 by done. cbn [negb]. by rewrite F, J.
  - intros F.
    unfold DBKoth.onPlayerDisconnected, Part002.onPlayerDisconnected. run_monad.
    rewrite F. rewrite bool_decide_eq_false_2; [done |]. by intros [? ?].
Qed.

End Lifecycle.

(** The claim as it was stated fails in part_000: bob has a row, but its
    playerdata is text that is no JSON; the handler throws at line 319 and
    bob's file is still the one that was there. *)
Lemma arrival_overwrites_file_counterexample :
  db (set_db (<["bob" := Row 30 2 (JStr "{oops")]> ∅) newer_row_world) !! "bob"
    = Some (Row 30 2 (JStr "{oops")) ∧
  fs (final (@Part000.onPlayerConnected Demo.host "bob"
               (set_db (<["bob" := Row 30 2 (JStr "{oops")]> ∅) newer_row_world)))
    !! "bob.json"
    = Some (File 10 (Demo.print Demo.score5)).
Proof. split; by vm_compute. Qed.

Lemma arrival_overwrites_file_witness :
  fs (final (@DBKoth.onPlayerConnected Demo.host "bob" newer_file_world)) !! "bob.json"
    = Some (File (@clock Demo.host 0) (Demo.print Demo.hp100)) ∧
  fs (final (@Part000.onPlayerConnected Demo.host "bob" newer_file_world)) !! "bob.json"
    = Some (File (@clock Demo.host 0) (Demo.print Demo.hp100)) ∧
  fs (final (@DBKoth.onPlayerConnected Demo.host "alice" newer_file_world))
    = fs newer_file_world.
Proof.
  destruct (@arrival_overwrites_file Demo.host "bob" newer_file_world) as [Hrow _].
  destruct (Hrow (Row 3 2 Demo.hp100)) as [R1 R2]; [by vm_compute |].
  destruct (R2 Demo.hp100) as (w' & R3 & F3); [done |].
  destruct (@arrival_overwrites_file Demo.host "alice" newer_file_world) as [_ Hnone].
  destruct Hnone as [R4 _]; [by vm_compute |].
  rewrite R1, R3, R4. cbn [final]. rewrite F3. split; [| split]; by vm_compute.
Defined.

Lemma departure_overwrites_row_witness :
  db (final (@DBKoth.onPlayerDisconnected Demo.host "bob" newer_row_world)) !! "bob"
    = Some (Row (@clock Demo.host 0) 1 Demo.score5) ∧
  @Part002.onPlayerDisconnected Demo.host "alice" newer_row_world
    = Returned tt newer_row_world.
Proof.
  destruct (@departure_overwrites_row Demo.host "bob" newer_row_world) as [Hfile _].
  destruct (Hfile (File 10 (Demo.print Demo.score5)) Demo.score5) as [R1 _];
    [by vm_compute | by vm_compute |].
  destruct (@departure_overwrites_row Demo.host "alice" newer_row_world) as [_ Hnone].
  destruct Hnone as [_ R2]; [by vm_compute |].
  rewrite R1. split; [by vm_compute | done].
Defined.

(** ** Telemetry and sessions (part_000) *)

Section Telemetry.
Context `{Host}.



(** What closing a session does when one is open. *)
Lemma Part000_close_session_open (id : string) (loginTime : Z) (w : world) :
  sessions w !! id = Some loginTime →
  ∃ w', Part000.close_session id w = Returned tt w' ∧
        sessions w' = delete id (sessions w) ∧
        ∀ found, find (λ r, String.eqb (player_id r) id) (stats w) = Some found →
          stats w' =
          map (λ r, if String.eqb (player_id r) id
                    then Stats (player_id r)
                           (playtime_seconds found + (clock (tick w) - loginTime) / 1000)
                           (kills r) (deaths r) (captures r) (clock (S (tick w)))
                    else r) (stats w).
Proof.
  intros S. unfold Part000.close_session. run_monad. rewrite S. world_simpl.
  destruct (find _ (stats w)) as [found|] eqn:Fd.
  - eexists. split; [done |]. world_simpl. split; [done |].
    intros ? [= <-]. done.
  - eexists. split; [done |]. world_simpl. done.
Qed.

(** When the file is not there, departure does close the session. *)
Lemma Part000_departure_without_file (steamID : string) (loginTime : Z) (w : world) :
  fs w !! getplayerfilename steamID = None →
  sessions w !! steamID = Some loginTime →
  ∃ w', Part000.onPlayerDisconnected steamID w = Returned tt w' ∧
        sessions w' !! steamID = None.
Proof.
  intros F S. unfold Part000.onPlayerDisconnected.
  unfold mbind at 1, M_bind at 1, bind at 1, existsSync. rewrite F.
  rewrite bool_decide_eq_false_2 by (by intros [? ?]). unfold getplayerids.
  destruct (Part000_close_session_open steamID loginTime w S) as (w' & R & Hs & _).
  exists w'. split; [done |]. rewrite Hs. apply lookup_delete_eq.
Qed.

(** C4, on part_000.  When the player's file is there but its text is not
    JSON, the [return] in the [catch] of line 349 ends the handler: nothing
    at all has changed.  The upsert is skipped, and so are lines 360-375:
    the open session is not deleted and no playtime is credited. *)
Theorem departure_malformed_file_keeps_session (steamID : string) (fl : file) (w : world) :
  fs w !! getplayerfilename steamID = Some fl →
  JSON_parse (content fl) = None →
  Part000.onPlayerDisconnected steamID w = Returned tt w.
Proof.
  intros F J. unfold Part000.onPlayerDisconnected. run_monad.
  rewrite F. rewrite bool_decide_eq_true_2 by done. by rewrite F, J.
Qed.

End Telemetry.

Lemma departure_malformed_file_keeps_session_witness :
  sessions (final (@Part000.onPlayerDisconnected Demo.host "bob" open_session_world))
    !! "bob" = Some 1000%Z ∧
  stats (final (@Part000.onPlayerDisconnected Demo.host "bob" open_session_world))
    = [Stats "bob" 60 4 2 1 1000] ∧
  (* without the file the session is closed and 7 seconds are credited *)
  sessions (final (@Part000.onPlayerDisconnected Demo.host "bob"
                     (set_fs ∅ open_session_world))) !! "bob" = None ∧
  stats (final (@Part000.onPlayerDisconnected Demo.host "bob"
                  (set_fs ∅ open_session_world)))
    = [Stats "bob" (60 + 1006) 4 2 1 (@clock Demo.host 8)].
Proof.
  rewrite (@departure_malformed_file_keeps_session Demo.host "bob" (File 10 "{oops")
             open_session_world); [| by vm_compute | by vm_compute].
  conj; by vm_compute.
Defined.

(** ** The counter merge (part_000) *)

Section CounterMerge.
Context `{Host}.








End CounterMerge.



(** ** The gated settings push (part_000) *)

Section Gate.
Context `{Host}.

Lemma readPlayerList_returns (w : world) :
  ∃ connectedSteamIDs, Part000.readPlayerList w = Returned connectedSteamIDs w.
Proof.
  unfold Part000.readPlayerList. run_monad.
  destruct (fs w !! "PlayerList.json") as [fl|] eqn:F.
  - rewrite bool_decide_eq_true_2 by done. cbn [negb]. rewrite F.
    destruct (String.eqb (content fl) ""); [by eexists |].
    destruct (JSON_parse (content fl)) as [jsonData|]; [| by eexists].
    destruct jsonData; try (by eexists);
      destruct (js_or _ _); by eexists.
  - rewrite bool_decide_eq_false_2 by (by intros [? ?]). by eexists.
Qed.

Lemma merge_stats_fs (steamID : string) (playerData : json) (w : world) :
  fs (final (Part000.merge_stats steamID playerData w)) = fs w.
Proof.
  unfold Part000.merge_stats. run_monad.
  destruct playerData; try done;
    destruct (find _ (stats w)); try done;
    repeat match goal with
           | |- context [match to_INTEGER ?x with _ => _ end] => destruct (to_INTEGER x)
           end; done.
Qed.

Lemma sync_player_fs (entry : json) (w : world) :
  ∃ w', Part000.sync_player entry w = Returned tt w' ∧ fs w' = fs w.
Proof.
  unfold Part000.sync_player.
  unfold mbind at 1, M_bind at 1, bind at 1, existsSync.
  destruct (bool_decide _); [| by eexists].
  unfold try_catch, mbind, M_bind, bind, readFile.
  destruct (fs w !! _) as [fl|]; [| by eexists].
  unfold parse. destruct (JSON_parse (content fl)) as [playerData|]; [| by eexists].
  unfold mret, M_ret, ret, new_Date, PlayerData_upsert.
  match goal with |- context [Part000.merge_stats ?a ?b ?c] =>
    pose proof (merge_stats_fs a b c) as Hm;
    destruct (Part000.merge_stats a b c) as [[] w0 | w0] end;
    exists w0; (split; [done |]); exact Hm.
Qed.

Lemma for_players_fs (connectedSteamIDs : list json) (w : world) :
  ∃ w', Part000.for_players connectedSteamIDs w = Returned tt w' ∧ fs w' = fs w.
Proof.
  revert w. induction connectedSteamIDs as [|entry rest IH]; intros w.
  - by exists w.
  - cbn [Part000.for_players]. unfold mbind, M_bind, bind.
    destruct (sync_player_fs entry w) as (w1 & -> & F1).
    destruct (IH w1) as (w' & R & F'). exists w'. split; [done | congruence].
Qed.

(** C8. The sweep of part_000 first reads the allow-list (PlayerList.json:
    the count is the length of its [players] array, and 0 when the file is
    missing).  Below 50 the sweep completes and has written no file at all,
    ServerSettings.json included.  At 50 or more, with the periodic sync
    enabled, the ServerSettings row is serialized to ServerSettings.json. *)
Theorem gated_settings_push (w : world) :
  (fs w !! "PlayerList.json" = None → player_count w = 0) ∧
  (∀ fl fields items,
     fs w !! "PlayerList.json" = Some fl →
     content fl ≠ "" →
     JSON_parse (content fl) = Some (JObj fields) →
     assoc "players" fields = Some (JArr items) →
     player_count w = length items) ∧
  (player_count w < 50 →
     ∃ w', Part000.syncKothFiles w = Returned tt w' ∧ fs w' = fs w) ∧
  (50 ≤ player_count w → syncEnabled = true →
     ∀ row serverData,
       db w !! "ServerSettings" = Some row →
       decode (playerdata row) w = Returned serverData w →
       ∃ w', Part000.syncKothFiles w = Returned tt w' ∧
             fs w' = <["ServerSettings.json" :=
                         File (clock (tick w)) (JSON_stringify2 serverData)]> (fs w)).
Proof.
  conj.
  - intros F. unfold player_count, Part000.readPlayerList. run_monad.
    rewrite F. by rewrite bool_decide_eq_false_2 by (by intros [? ?]).
  - intros fl fields items F Hne J A.
    unfold player_count, Part000.readPlayerList. run_monad.
    rewrite F. rewrite bool_decide_eq_true_2 by done. cbn [negb]. rewrite F.
    apply String.eqb_neq in Hne. rewrite Hne, J. cbn [js_get]. by rewrite A.
  - intros Hlt. unfold player_count in Hlt. unfold Part000.syncKothFiles.
    destruct (readPlayerList_returns w) as (l & R). rewrite R in Hlt.
    unfold try_catch, mbind, M_bind, bind. rewrite R.
    apply Nat.leb_gt in Hlt. rewrite Hlt. cbn [andb]. unfold mret, M_ret, ret.
    destruct (for_players_fs l w) as (w' & -> & F'). by exists w'.
  - intros Hge En row serverData D Dec. unfold player_count in Hge.
    unfold Part000.syncKothFiles.
    destruct (readPlayerList_returns w) as (l & R). rewrite R in Hge.
    unfold try_catch at 1, mbind at 1 2, M_bind at 1 2, bind at 1 2. rewrite R.
    apply Nat.leb_le in Hge. rewrite Hge, En. cbn [andb].
    unfold Part000.syncServerSettings, try_catch, mbind, M_bind, bind,
      PlayerData_findOne.
    rewrite D, Dec. unfold writeFile.
    match goal with |- context [Part000.for_players l ?w1] =>
      destruct (for_players_fs l w1) as (w' & -> & F') end.
    exists w'. split; [done |]. by rewrite F'.
Qed.

End Gate.

Lemma gated_settings_push_witness :
  fs (final (@Part000.syncKothFiles Demo.host (gate_world 2))) !! "ServerSettings.json"
    = None ∧
  fs (final (@Part000.syncKothFiles Demo.host (gate_world 50))) !! "ServerSettings.json"
    = Some (File (@clock Demo.host 0) (Demo.print Demo.hp100)).
Proof.
  destruct (@gated_settings_push Demo.host (gate_world 2)) as (_ & _ & Hlow & _).
  destruct Hlow as (w2 & R2 & F2); [vm_compute; lia |].
  destruct (@gated_settings_push Demo.host (gate_world 50)) as (_ & _ & _ & Hhigh).
  destruct (Hhigh ltac:(vm_compute; lia) eq_refl (Row 3 2 Demo.hp100) Demo.hp100)
    as (w50 & R50 & F50); [by vm_compute | done |].
  rewrite R2, R50. cbn [final]. rewrite F2, F50. split; by vm_compute.
Defined.

(** * Further properties of the plugins *)

(** ** File names and ids *)

Section Names.

#[local] Arguments String.append !_ _ / : simpl nomatch.

Lemma toLowerCase_length (s : string) :
  String.length (toLowerCase s) = String.length s.
Proof. induction s as [|c s IH]; [done |]. cbn. by rewrite IH. Qed.

Lemma prefix_json_append (c : ascii) (x : string) :
  String.prefix ".json" (String c (x +:+ ".json")) = String.prefix ".json" (String c x).
Proof.
  destruct x as [|c2 [|c3 [|c4 [|c5 x]]]]; cbn [String.append String.prefix];
    repeat match goal with
           | |- context [ascii_dec ?a ?b] => destruct (ascii_dec a b); subst; try done
           end.
  by destruct x.
Qed.

Lemma occurrences_json_append (id : string) :
  occurrences ".json" (id +:+ ".json") = S (occurrences ".json" id).
Proof.
  induction id as [|c id IH]; [done |].
  cbn [String.append]. rewrite !occurrences_cons, prefix_json_append, IH. lia.
Qed.

Lemma digits_no_json (s : string) :
  all_digits s = true → occurrences ".json" s = 0.
Proof.
  induction s as [|c s IH]; [done |]. cbn [all_digits]. intros D.
  apply andb_true_iff in D as [Dc Ds]. rewrite occurrences_cons, (IH Ds).
  cbn [String.prefix]. destruct (ascii_dec "." c) as [<- | _]; [done | lia].
Qed.

(** The name the join/leave handlers give the file of a player leads the
    sweeps back to the player's id exactly when the id holds no ".json";
    in particular for every 17-digit id. *)
Theorem playerfileid_getplayerfilename (id : string) :
  (playerfileid (getplayerfilename id) = id ↔ occurrences ".json" id = 0) ∧
  (is_steamid id = true → playerfileid (getplayerfilename id) = id).
Proof.
  assert (playerfileid (getplayerfilename id) = id ↔ occurrences ".json" id = 0) as Hiff.
  { unfold getplayerfilename. split.
    - intros E.
      assert (occurrences ".json" (id +:+ ".json") = 1) as O.
      { apply (occurrences_one ".json" _ id eq_refl). intros p r Ep.
        pose proof (first_piece_earliest _ _ _ _ Ep) as L.
        fold (playerfileid (id +:+ ".json")) in L. rewrite E in L.
        apply (f_equal String.length) in Ep. rewrite !append_length in Ep.
        apply length_zero. lia. }
      rewrite occurrences_json_append in O. lia.
    - intros Z.
      assert (occurrences ".json" (id +:+ ".json") = 1) as O
        by (rewrite occurrences_json_append; lia).
      pose proof (proj1 (occurrences_one ".json" _ id eq_refl) O) as A.
      destruct (first_piece_followed ".json" (id +:+ ".json") id "") as [r Hr];
        [by rewrite append_empty_r |].
      fold (playerfileid (id +:+ ".json")) in Hr.
      pose proof (A _ _ Hr) as ->. rewrite append_empty_r in Hr.
      symmetry. by apply append_inj_l in Hr. }
  split; [done |]. intros S. apply Hiff, digits_no_json.
  unfold is_steamid in S. by apply andb_true_iff in S as [_ ?].
Qed.

Lemma playerfileid_getplayerfilename_witness :
  playerfileid (getplayerfilename "76561198000000001") = "76561198000000001" ∧
  playerfileid (getplayerfilename "a.json.b") = "a".
Proof.
  split; [| done].
  by apply (proj2 (playerfileid_getplayerfilename "76561198000000001")).
Defined.

(** No 17-digit id is "serversettings" in any casing: in the test of line
    164 of part_001 (line 177 of part_002) the second disjunct never
    decides. *)
Lemma steamid_test_decides (steamID : string) :
  negb (is_steamid steamID) || String.eqb (toLowerCase steamID) "serversettings"
  = negb (is_steamid steamID).
Proof.
  destruct (is_steamid steamID) eqn:S; [| done]. cbn.
  apply String.eqb_neq. intros E.
  apply (f_equal String.length) in E. rewrite toLowerCase_length in E.
  unfold is_steamid in S. apply andb_true_iff in S as [L _].
  apply Nat.eqb_eq in L. rewrite L in E. done.
Qed.

End Names.

(** ** The settings file under the sweeps of part_001 and part_002 *)

Section SettingsFile.
Context `{Host}.

Lemma final_bind {A B} (m : M A) (k : A → M B) (w : world) :
  final ((m ≫= k) w) =
  match m w with
  | Returned a w1 => final (k a w1)
  | Thrown w1 => w1
  end.
Proof. unfold mbind, M_bind, bind. by destruct (m w). Qed.

(** One turn of the loop of part_001 writes no file but the one it is at,
    and not even that one when the entry is skipped. *)
Lemma Part001_sync_file_fs (playerfile name : string) (P : gset string) (w : world) :
  (name = playerfile → Part001.skipped playerfile = true) →
  fs (final (Part001.sync_file playerfile P w)) !! name = fs w !! name.
Proof.
  intros Hname. unfold Part001.sync_file.
  destruct (Part001.skipped playerfile) eqn:Sk; [done |].
  assert (name ≠ playerfile) as Hne by (intros ->; by specialize (Hname eq_refl)).
  run_monad. destruct (fs w !! playerfile) as [fl|] eqn:F; [| done].
  destruct (file_is_newer _ _).
  - rewrite F. destruct (JSON_parse (content fl)); done.
  - destruct (db w !! playerfileid playerfile) as [row|]; [| done].
    destruct (playerdata row) as [| | |text| |]; world_simpl;
      try (by rewrite lookup_insert_ne).
    destruct (JSON_parse text); world_simpl; [by rewrite lookup_insert_ne | done].
Qed.

Lemma Part001_for_files_fs (files : list string) (name : string) (P : gset string)
    (w : world) :
  (name ∈ files → Part001.skipped name = true) →
  fs (final (Part001.for_files files P w)) !! name = fs w !! name.
Proof.
  revert P w. induction files as [|f files IH]; intros P w Hname; [done |].
  cbn [Part001.for_files]. rewrite final_bind.
  pose proof (Part001_sync_file_fs f name P w) as S1.
  destruct (Part001.sync_file f P w) as [P1 w1 | w1]; cbn [final] in S1.
  - rewrite IH, S1; [done | intros ->; apply Hname; set_solver |].
    intros Hin. apply Hname. set_solver.
  - apply S1. intros ->. apply Hname. set_solver.
Qed.

(** The catch-up pass of part_001 writes only files named by a 17-digit id. *)
Lemma Part001_catch_up_fs (rows : list (string * PlayerData)) (P : gset string)
    (w : world) (name : string) :
  (∀ steamID, is_steamid steamID = true → name ≠ getplayerfilename steamID) →
  fs (final (Part001.catch_up rows P w)) !! name = fs w !! name.
Proof.
  intros Hname. revert w. induction rows as [|[steamID row] rows IH]; intros w; [done |].
  cbn [Part001.catch_up]. rewrite steamid_test_decides.
  destruct (is_steamid steamID) eqn:S; cbn [negb].
  2: { unfold mbind, M_bind, bind, mret, M_ret, ret. apply IH. }
  case_bool_decide; [unfold mbind, M_bind, bind, mret, M_ret, ret; apply IH |].
  unfold mbind at 1 2, M_bind at 1 2, bind at 1 2.
  destruct (decode_cases (playerdata row) w) as [[data ->] | ->]; [| done].
  unfold writeFile. rewrite IH. world_simpl.
  rewrite lookup_insert_ne; [done |]. intros E. by apply (Hname steamID).
Qed.

Lemma settings_name_not_steamid (name steamID : string) :
  toLowerCase name = "serversettings.json" →
  is_steamid steamID = true → name ≠ getplayerfilename steamID.
Proof.
  intros L S ->. apply (f_equal String.length) in L.
  rewrite toLowerCase_length in L. unfold getplayerfilename in L.
  rewrite append_length in L. unfold is_steamid in S.
  apply andb_true_iff in S as [S _]. apply Nat.eqb_eq in S. rewrite S in L. done.
Qed.

Lemma Part001_sweep_fs_settings (files : list string) (w : world) (name : string) :
  toLowerCase name = "serversettings.json" →
  fs (final (Part001.sweep files w)) !! name = fs w !! name.
Proof.
  intros L. unfold Part001.sweep. rewrite final_bind.
  pose proof (Part001_for_files_fs files name ∅ w) as S1.
  assert (Part001.skipped name = true) as Sk.
  { unfold Part001.skipped. rewrite L. cbn. apply orb_true_r. }
  destruct (Part001.for_files files ∅ w) as [P1 w1 | w1]; cbn [final] in S1;
    [| by apply S1].
  rewrite final_bind. unfold PlayerData_findAll.
  rewrite Part001_catch_up_fs; [by apply S1 |].
  intros steamID. by apply settings_name_not_steamid.
Qed.

(** The sweep of part_001 never writes, creates or touches
    ServerSettings.json, in any casing of the name, whatever the folder and
    the table hold and however the sweep ends. *)
Theorem Part001_sweep_spares_settings_file (files : list string) (w : world)
    (name : string) :
  toLowerCase name = "serversettings.json" →
  fs (final (Part001.syncKothFiles files w)) !! name = fs w !! name.
Proof.
  intros L. unfold Part001.syncKothFiles, try_catch.
  pose proof (Part001_sweep_fs_settings files w name L) as S.
  by destruct (Part001.sweep files w).
Qed.

(** The sweep of part_002 is a one-way push of the settings: when the table
    has the ServerSettings row and its playerdata decodes, ServerSettings.json
    holds its serialization after the sweep, stamped at the start of the
    sweep, whatever the file held and however the rest of the sweep goes;
    with no such row the file is left as it was. *)
Theorem Part002_sweep_pushes_settings (files : list string) (w : world) :
  (∀ row serverData,
     db w !! "ServerSettings" = Some row →
     decode (playerdata row) w = Returned serverData w →
     fs (final (Part002.syncKothFiles files w)) !! "ServerSettings.json"
       = Some (File (clock (tick w)) (JSON_stringify2 serverData))) ∧
  (db w !! "ServerSettings" = None →
     fs (final (Part002.syncKothFiles files w)) !! "ServerSettings.json"
       = fs w !! "ServerSettings.json").
Proof.
  split.
  - intros row serverData D Dec.
    unfold Part002.syncKothFiles, try_catch, Part002.push_settings.
    unfold mbind, M_bind, bind, PlayerData_findOne. rewrite D, Dec. unfold writeFile.
    match goal with |- context [Part001.sweep files ?w1] =>
      pose proof (Part001_sweep_fs_settings files w1 "ServerSettings.json" eq_refl) as S;
      destruct (Part001.sweep files w1) end;
      cbv beta iota delta [final ret] in *; rewrite S; world_simpl;
      by rewrite lookup_insert_eq.
  - intros D.
    unfold Part002.syncKothFiles, try_catch, Part002.push_settings.
    unfold mbind, M_bind, bind, PlayerData_findOne, mret, M_ret, ret. rewrite D.
    pose proof (Part001_sweep_fs_settings files w "ServerSettings.json" eq_refl) as S.
    by destruct (Part001.sweep files w).
Qed.

End SettingsFile.

Lemma Part001_sweep_spares_settings_file_witness :
  fs (final (@Part001.syncKothFiles Demo.host ["SERVERSETTINGS.json"; "bob.json"]
               (set_fs (<["SERVERSETTINGS.json" := File 10 "{oops"]> (fs newer_row_world))
                       newer_row_world)))
    !! "SERVERSETTINGS.json" = Some (File 10 "{oops").
Proof.
  rewrite (@Part001_sweep_spares_settings_file Demo.host); [by vm_compute | by vm_compute].
Defined.

Lemma Part002_sweep_pushes_settings_witness :
  fs (final (@Part002.syncKothFiles Demo.host [] settings_only_world))
    !! "ServerSettings.json"
  = Some (File (@clock Demo.host 0) (Demo.print Demo.hp100)).
Proof.
  destruct (@Part002_sweep_pushes_settings Demo.host [] settings_only_world) as [Hpush _].
  by apply (Hpush (Row 3 2 Demo.hp100) Demo.hp100).
Defined.

(** ** Rows without a file, in part_001 *)

Section Part001CatchUp.
Context `{Host}.

Lemma decode_any_world (v data : json) (w w0 : world) :
  decode v w = Returned data w → decode v w0 = Returned data w0.
Proof.
  unfold decode, parse. destruct v as [| | |text| |]; try (by intros [= <-]).
  destruct (JSON_parse text); [by intros [= <-] | done].
Qed.

Lemma Part001_sync_file_db (playerfile id : string) (P P' : gset string) (w w' : world) :
  Part001.sync_file playerfile P w = Returned P' w' →
  (Part001.skipped playerfile = false → id ≠ playerfileid playerfile) →
  db w' !! id = db w !! id ∧ (id ∈ P' → id ∈ P).
Proof.
  intros R Hid. unfold Part001.sync_file in R.
  destruct (Part001.skipped playerfile) eqn:Sk.
  { by injection R as <- <-. }
  specialize (Hid eq_refl). run_monad.
  destruct (fs w !! playerfile) as [fl|] eqn:F; [| done].
  destruct (file_is_newer _ _).
  - rewrite F in R. destruct (JSON_parse (content fl)); injection R as <- <-;
      world_simpl; (split; [| set_solver]); [by rewrite lookup_insert_ne | done].
  - destruct (db w !! playerfileid playerfile) as [row|].
    + destruct (playerdata row) as [| | |text| |];
        try (injection R as <- <-; world_simpl; split; [done | set_solver]).
      destruct (JSON_parse text); [| done].
      injection R as <- <-. world_simpl. split; [done | set_solver].
    + injection R as <- <-. split; [done | set_solver].
Qed.

Lemma Part001_for_files_db (files : list string) (id : string) (P P' : gset string)
    (w w' : world) :
  Part001.for_files files P w = Returned P' w' →
  (∀ f, f ∈ files → Part001.skipped f = false → id ≠ playerfileid f) →
  db w' !! id = db w !! id ∧ (id ∈ P' → id ∈ P).
Proof.
  revert P w. induction files as [|f files IH]; intros P w R Hid.
  - by injection R as <- <-.
  - cbn [Part001.for_files] in R. unfold mbind, M_bind, bind in R.
    destruct (Part001.sync_file f P w) as [P1 w1|] eqn:S1; [| done].
    apply (Part001_sync_file_db _ id) in S1 as [D1 HP1];
      [| intros Sk; apply Hid; [set_solver | done]].
    apply IH in R as [D HP]; [| intros f' Hf'; apply Hid; set_solver].
    split; [congruence | tauto].
Qed.

Lemma Part001_catch_up_absent (rows : list (string * PlayerData)) (P : gset string)
    (w : world) (id : string) :
  id ∉ rows.*1 →
  fs (final (Part001.catch_up rows P w)) !! getplayerfilename id
    = fs w !! getplayerfilename id.
Proof.
  revert w. induction rows as [|[steamID row] rows IH]; intros w Hid; [done |].
  assert (id ≠ steamID ∧ id ∉ rows.*1) as [Hne Hid'] by set_solver.
  cbn [Part001.catch_up].
  destruct (negb (is_steamid steamID) || String.eqb (toLowerCase steamID) "serversettings").
  { unfold mbind, M_bind, bind, mret, M_ret, ret. by apply IH. }
  case_bool_decide; [unfold mbind, M_bind, bind, mret, M_ret, ret; by apply IH |].
  unfold mbind at 1 2, M_bind at 1 2, bind at 1 2.
  destruct (decode_cases (playerdata row) w) as [[data ->] | ->]; [| done].
  unfold writeFile. rewrite IH by done. world_simpl.
  rewrite lookup_insert_ne; [done |]. intros E. by apply getplayerfilename_inj in E.
Qed.

Lemma Part001_catch_up_writes (rows : list (string * PlayerData)) (P : gset string)
    (w w' : world) (id : string) (row : PlayerData) (data : json) :
  NoDup rows.*1 → (id, row) ∈ rows → id ∉ P → is_steamid id = true →
  decode (playerdata row) w = Returned data w →
  Part001.catch_up rows P w = Returned tt w' →
  ∃ t, tick w ≤ t < tick w' ∧
       fs w' !! getplayerfilename id = Some (File (clock t) (JSON_stringify2 data)).
Proof.
  revert w. induction rows as [|[steamID row'] rows IH]; intros w ND Hin HP S Dec R.
  - by apply elem_of_nil in Hin.
  - cbn [fmap list_fmap fst] in ND. apply NoDup_cons in ND as [Hhd ND].
    cbn [Part001.catch_up] in R. rewrite steamid_test_decides in R.
    apply elem_of_cons in Hin as [Heq | Hin].
    + injection Heq as <- <-. rewrite S in R. cbn [negb] in R.
      rewrite bool_decide_eq_false_2 in R by done.
      unfold mbind at 1 2, M_bind at 1 2, bind at 1 2 in R. rewrite Dec in R.
      unfold writeFile in R.
      match type of R with Part001.catch_up rows P ?w1 = _ =>
        pose proof (Part001_catch_up_absent rows P w1 id Hhd) as Hfs;
        assert (tick w1 ≤ tick w') as Ht end.
      { clear -R. revert R. generalize (next_tick
          (set_fs (<[id +:+ ".json":=File (clock (tick w)) (JSON_stringify2 data)]> (fs w)) w)).
        induction rows as [|[s r] rows IH]; intros w0 R.
        - by injection R as <-.
        - cbn [Part001.catch_up] in R.
          destruct (negb (is_steamid s) || String.eqb (toLowerCase s) "serversettings").
          { unfold mbind, M_bind, bind, mret, M_ret, ret in R. by apply IH. }
          case_bool_decide;
            [unfold mbind, M_bind, bind, mret, M_ret, ret in R; by apply IH |].
          unfold mbind at 1 2, M_bind at 1 2, bind at 1 2 in R.
          destruct (decode_cases (playerdata r) w0) as [[d E] | E]; rewrite E in R;
            [| done].
          unfold writeFile in R. apply IH in R. world_simpl. lia. }
      rewrite R in Hfs. cbn [final] in Hfs. world_simpl.
      exists (tick w). split; [lia |]. rewrite Hfs. by rewrite lookup_insert_eq.
    + destruct (is_steamid steamID); cbn [negb] in R.
      2: { unfold mbind, M_bind, bind, mret, M_ret, ret in R.
           by apply (IH w). }
      case_bool_decide;
        [unfold mbind, M_bind, bind, mret, M_ret, ret in R; by apply (IH w) |].
      unfold mbind at 1 2, M_bind at 1 2, bind at 1 2 in R.
      destruct (decode_cases (playerdata row') w) as [[d E] | E]; rewrite E in R; [| done].
      unfold writeFile in R. apply IH in R as (t & Ht & F); try done.
      * exists t. world_simpl. split; [lia | done].
      * by apply (decode_any_world _ _ w).
Qed.

(** After a sweep of part_001 that ran to its end, a row with a 17-digit id
    that no listed entity file derives has its file: "<id>.json" holds the
    indented serialization of the row's (decoded) playerdata. *)
Theorem Part001_sweep_materializes_row (files : list string) (w w' : world)
    (id : string) (row : PlayerData) (data : json) :
  is_steamid id = true →
  db w !! id = Some row →
  decode (playerdata row) w = Returned data w →
  (∀ f, f ∈ files → Part001.skipped f = false → id ≠ playerfileid f) →
  Part001.sweep files w = Returned tt w' →
  ∃ t, tick w ≤ t < tick w' ∧
       fs w' !! getplayerfilename id = Some (File (clock t) (JSON_stringify2 data)).
Proof.
  intros S D Dec Hfiles R. unfold Part001.sweep in R.
  unfold mbind, M_bind, bind, PlayerData_findAll in R.
  destruct (Part001.for_files files ∅ w) as [P1 w1|] eqn:R1; [| done].
  assert (tick w ≤ tick w1) as Ht1.
  { clear -R1. revert R1. generalize (∅ : gset string).
    revert w. induction files as [|f files IH]; intros w P R1.
    - by injection R1 as <- <-.
    - cbn [Part001.for_files] in R1. unfold mbind, M_bind, bind in R1.
      destruct (Part001.sync_file f P w) as [P2 w2|] eqn:S2; [| done].
      apply IH in R1. enough (tick w ≤ tick w2) by lia. clear -S2.
      unfold Part001.sync_file in S2.
      destruct (Part001.skipped f); [by injection S2 as <- <- |].
      run_monad. destruct (fs w !! f) as [fl|] eqn:F; [| done].
      destruct (file_is_newer _ _).
      + rewrite F in S2. destruct (JSON_parse (content fl)); injection S2 as <- <-;
          world_simpl; lia.
      + destruct (db w !! playerfileid f) as [row|].
        * destruct (playerdata row) as [| | |text| |];
            try (injection S2 as <- <-; world_simpl; lia).
          destruct (JSON_parse text); [| done]. injection S2 as <- <-. world_simpl. lia.
        * by injection S2 as <- <-. }
  apply (Part001_for_files_db _ id) in R1 as [D1 HP1]; [| done].
  destruct (Part001_catch_up_writes (table_order (db w1)) P1 w1 w' id row data)
    as (t & Ht & F); try done.
  - apply table_order_NoDup.
  - apply table_order_elem. by rewrite D1.
  - intros Hin. apply HP1 in Hin. set_solver.
  - by apply (decode_any_world _ _ w).
  - exists t. split; [lia | done].
Qed.

Lemma Part001_catch_up_app (l1 l2 : list (string * PlayerData)) (P : gset string)
    (w : world) :
  Part001.catch_up (l1 ++ l2) P w =
  match Part001.catch_up l1 P w with
  | Returned _ w1 => Part001.catch_up l2 P w1
  | Thrown w1 => Thrown w1
  end.
Proof.
  revert w. induction l1 as [|[s r] l1 IH]; intros w; [done |].
  cbn [app Part001.catch_up].
  match goal with |- (mbind _ ?step) w = _ => generalize step end.
  intros m. unfold mbind, M_bind, bind. destruct (m w); [apply IH | done].
Qed.

(** A row whose playerdata is stored as text that is no JSON is not
    isolated: when the catch-up pass of part_001 reaches it (17-digit id,
    not processed), the pass ends there and the rows after it get no file. *)
Theorem Part001_catch_up_aborts_on_bad_row (before after : list (string * PlayerData))
    (P : gset string) (w w1 : world) (id : string) (row : PlayerData) :
  Part001.catch_up before P w = Returned tt w1 →
  is_steamid id = true → id ∉ P →
  decode (playerdata row) w1 = Thrown w1 →
  Part001.catch_up (before ++ (id, row) :: after) P w = Thrown w1.
Proof.
  intros R S HP Dec. rewrite Part001_catch_up_app, R.
  cbn [Part001.catch_up]. rewrite steamid_test_decides, S. cbn [negb].
  rewrite bool_decide_eq_false_2 by done.
  unfold mbind, M_bind, bind. by rewrite Dec.
Qed.

End Part001CatchUp.

Lemma Part001_sweep_materializes_row_witness :
  ∃ w' t,
    @Part001.sweep Demo.host ["bad.json"; "good.json"] malformed_world = Returned tt w' ∧
    fs w' !! getplayerfilename Demo.steamid1
      = Some (File (@clock Demo.host t) (Demo.print Demo.score5)).
Proof.
  assert (∃ w', @Part001.sweep Demo.host ["bad.json"; "good.json"] malformed_world
                = Returned tt w') as [w' R] by (vm_compute; by eexists).
  destruct (@Part001_sweep_materializes_row Demo.host ["bad.json"; "good.json"]
              malformed_world w' Demo.steamid1 (Row 3 2 Demo.score5) Demo.score5)
    as (t & _ & F); [by vm_compute | by vm_compute | done | | exact R |].
  - intros f Hf _. set_unfold in Hf. destruct Hf as [-> | [-> | []]]; by vm_compute.
  - exists w', t. split; [exact R | exact F].
Defined.

Lemma Part001_catch_up_aborts_on_bad_row_witness :
  fs (final (@Part001.catch_up Demo.host
               [(Demo.steamid1, Row 3 2 (JStr "{oops")); (Demo.steamid2, Row 3 2 Demo.hp100)]
               ∅ Demo.empty_world))
    !! getplayerfilename Demo.steamid2 = None.
Proof.
  rewrite (@Part001_catch_up_aborts_on_bad_row Demo.host []
             [(Demo.steamid2, Row 3 2 Demo.hp100)] ∅ Demo.empty_world Demo.empty_world
             Demo.steamid1 (Row 3 2 (JStr "{oops")));
    [by vm_compute | done | by vm_compute | set_solver | by vm_compute].
Defined.

(** ** Entries that vanish, departures that fail *)

Section Failures.
Context `{Host}.

Lemma Part001_sync_file_missing (playerfile : string) (P : gset string) (w : world) :
  Part001.skipped playerfile = false →
  fs w !! playerfile = None →
  Part001.sync_file playerfile P w = Thrown w.
Proof.
  intros Sk F. unfold Part001.sync_file. rewrite Sk. run_monad. by rewrite F.
Qed.

(** [stat] is outside every per-file [try]: in DBKoth.js and in part_001
    alike, a listed entity file that is no longer in the folder ends the
    sweep where the loop stands; the entries after it are not looked at and
    the catch-up pass does not run. *)
Theorem sweep_aborts_on_vanished_file (before after : list string) (gone : string)
    (w : world) :
  (∀ P1 w1,
     DBKoth.for_files before ∅ w = Returned P1 w1 →
     endsWith gone ".json" = true →
     fs w1 !! gone = None →
     DBKoth.syncKothFiles (before ++ gone :: after) w = Returned tt w1) ∧
  (∀ P1 w1,
     Part001.for_files before ∅ w = Returned P1 w1 →
     Part001.skipped gone = false →
     fs w1 !! gone = None →
     Part001.syncKothFiles (before ++ gone :: after) w = Returned tt w1).
Proof.
  split; intros P1 w1 R1 E F.
  - unfold DBKoth.syncKothFiles, DBKoth.sweep, try_catch, mbind, M_bind, bind.
    rewrite DBKoth_for_files_app, R1. cbn [DBKoth.for_files].
    unfold mbind, M_bind, bind. by rewrite DBKoth_sync_file_missing.
  - unfold Part001.syncKothFiles, Part001.sweep, try_catch, mbind, M_bind, bind.
    rewrite Part001_for_files_app, R1. cbn [Part001.for_files].
    unfold mbind, M_bind, bind. by rewrite Part001_sync_file_missing.
Qed.

(** A departure whose file is there but holds no JSON: in DBKoth.js the
    SyntaxError leaves the handler (line 209 is not guarded); in part_001,
    part_002 and OfficialKothDB.js it is caught and the handler returns.
    In all four nothing has been written. *)
Theorem departure_with_malformed_file (steamID : string) (fl : file) (w : world) :
  fs w !! getplayerfilename steamID = Some fl →
  JSON_parse (content fl) = None →
  DBKoth.onPlayerDisconnected steamID w = Thrown w ∧
  Part001.onPlayerDisconnected steamID w = Returned tt w ∧
  Part002.onPlayerDisconnected steamID w = Returned tt w ∧
  OfficialKothDB.onPlayerDisconnected steamID w = Returned tt w.
Proof.
  intros F J.
  unfold OfficialKothDB.onPlayerDisconnected, DBKoth.onPlayerDisconnected,
    Part001.onPlayerDisconnected, Part002.onPlayerDisconnected.
  run_monad. rewrite F. rewrite bool_decide_eq_true_2 by done. cbn [negb].
  by rewrite F, J.
Qed.

(** Leaving and joining again, in DBKoth.js: the row takes the parsed file
    and the file is rewritten as the serialization of what was parsed. *)
Theorem DBKoth_departure_then_arrival (steamID : string) (fl : file) (parsed : json)
    (w : world) :
  fs w !! getplayerfilename steamID = Some fl →
  JSON_parse (content fl) = Some parsed →
  ∃ w1 w2,
    DBKoth.onPlayerDisconnected steamID w = Returned tt w1 ∧
    DBKoth.onPlayerConnected steamID w1 = Returned tt w2 ∧
    db w2 !! steamID = Some (Row (clock (tick w)) server_id parsed) ∧
    fs w2 !! getplayerfilename steamID
      = Some (File (clock (S (tick w))) (JSON_stringify parsed)) ∧
    (∀ other, other ≠ steamID →
       db w2 !! other = db w !! other ∧
       fs w2 !! getplayerfilename other = fs w !! getplayerfilename other).
Proof.
  intros F J. unfold DBKoth.onPlayerDisconnected, DBKoth.onPlayerConnected.
  run_monad. rewrite F. rewrite bool_decide_eq_true_2 by done. cbn [negb].
  rewrite F, J. eexists _, _. split; [done |]. world_simpl.
  rewrite lookup_insert_eq. split; [done |]. world_simpl.
  rewrite !lookup_insert_eq. conj; [done | done |].
  intros other Hne. rewrite !lookup_insert_ne; [done | | done].
  intros E. by apply getplayerfilename_inj in E.
Qed.

End Failures.

Lemma sweep_aborts_on_vanished_file_witness :
  @DBKoth.syncKothFiles Demo.host ["ghost.json"; "bob.json"] newer_file_world
    = Returned tt newer_file_world ∧
  @Part001.syncKothFiles Demo.host ["ghost.json"; "bob.json"] newer_file_world
    = Returned tt newer_file_world.
Proof.
  destruct (@sweep_aborts_on_vanished_file Demo.host [] ["bob.json"] "ghost.json"
              newer_file_world) as [HD HP].
  split.
  - by apply (HD ∅ newer_file_world).
  - by apply (HP ∅ newer_file_world).
Defined.

Lemma departure_with_malformed_file_witness :
  @DBKoth.onPlayerDisconnected Demo.host "bob" open_session_world
    = Thrown open_session_world ∧
  @Part002.onPlayerDisconnected Demo.host "bob" open_session_world
    = Returned tt open_session_world.
Proof.
  destruct (@departure_with_malformed_file Demo.host "bob" (File 10 "{oops")
              open_session_world) as (R1 & _ & R2 & _);
    [by vm_compute | by vm_compute |].
  split; [exact R1 | exact R2].
Defined.

Lemma DBKoth_departure_then_arrival_witness :
  ∃ w1 w2,
    @DBKoth.onPlayerDisconnected Demo.host "bob" newer_row_world = Returned tt w1 ∧
    @DBKoth.onPlayerConnected Demo.host "bob" w1 = Returned tt w2 ∧
    fs w2 !! "bob.json" = Some (File (@clock Demo.host 1) (Demo.print Demo.score5)).
Proof.
  destruct (@DBKoth_departure_then_arrival Demo.host "bob"
              (File 10 (Demo.print Demo.score5)) Demo.score5 newer_row_world)
    as (w1 & w2 & R1 & R2 & _ & F & _); [by vm_compute | by vm_compute |].
  exists w1, w2. split; [exact R1 | split; [exact R2 | exact F]].
Defined.

(** ** Captures, playtime and the allow-list (part_000) *)

Section Part000More.
Context `{Host}.


(** [readPlayerList] never throws and never changes anything; what it
    returns is the [players] array of a PlayerList.json that is there, is
    not empty and parses to an object -- and [] in every other case. *)
Theorem readPlayerList_total (w : world) :
  ∃ connectedSteamIDs,
    Part000.readPlayerList w = Returned connectedSteamIDs w ∧
    (connectedSteamIDs ≠ [] →
       ∃ fl fields,
         fs w !! "PlayerList.json" = Some fl ∧
         content fl ≠ "" ∧
         JSON_parse (content fl) = Some (JObj fields) ∧
         assoc "players" fields = Some (JArr connectedSteamIDs)).
Proof.
  unfold Part000.readPlayerList. run_monad.
  destruct (fs w !! "PlayerList.json") as [fl|] eqn:F.
  2: { rewrite bool_decide_eq_false_2 by (by intros [? ?]). by exists []. }
  rewrite bool_decide_eq_true_2 by done. cbn [negb]. rewrite F.
  destruct (String.eqb (content fl) "") eqn:E; [by exists [] |].
  apply String.eqb_neq in E.
  destruct (JSON_parse (content fl)) as [jsonData|] eqn:J; [| by exists []].
  destruct jsonData as [| | | | |fields]; try (by exists []).
  cbn [js_get]. destruct (assoc "players" fields) as [v|] eqn:A; [| by exists []].
  unfold js_or. destruct v as [|b|n|s|items|?]; cbn [js_truthy];
    try (by exists []).
  - destruct b; by exists [].
  - destruct (negb (n =? 0)%Z); by exists [].
  - destruct (negb (String.eqb s "")); by exists [].
  - exists items. split; [done |]. intros _. by exists fl, fields.
Qed.

Lemma merge_stats_db (steamID : string) (playerData : json) (w : world) :
  db (final (Part000.merge_stats steamID playerData w)) = db w.
Proof.
  unfold Part000.merge_stats. run_monad.
  destruct playerData; try done;
    destruct (find _ (stats w)); try done;
    repeat match goal with
           | |- context [match to_INTEGER ?x with _ => _ end] => destruct (to_INTEGER x)
           end; done.
Qed.

(** In the sweeps over the allow-list (part_000 and OfficialKothDB.js) the
    file of a listed player always wins: if it is there and parses, its
    document becomes the row of the player with lastsave = now, whatever
    row and lastsave the table had.  No file, or a file that is no JSON:
    the turn changes nothing, and in every case the loop goes on. *)
Theorem allow_list_file_always_wins (entry : json) (w : world) :
  (∀ fl parsed,
     fs w !! (js_String entry +:+ ".json") = Some fl →
     JSON_parse (content fl) = Some parsed →
     (∃ w', Part000.sync_player entry w = Returned tt w' ∧
            db w' = <[js_String entry := Row (clock (tick w)) server_id parsed]> (db w)) ∧
     OfficialKothDB.sync_player entry w =
       Returned tt (set_db (<[js_String entry := Row (clock (tick w)) server_id parsed]>
                              (db w)) (next_tick w))) ∧
  (fs w !! (js_String entry +:+ ".json") = None ∨
   (∃ fl, fs w !! (js_String entry +:+ ".json") = Some fl ∧
          JSON_parse (content fl) = None) →
   Part000.sync_player entry w = Returned tt w ∧
   OfficialKothDB.sync_player entry w = Returned tt w).
Proof.
  split.
  - intros fl parsed F J. split.
    + unfold Part000.sync_player.
      unfold mbind at 1, M_bind at 1, bind at 1, existsSync.
      rewrite bool_decide_eq_true_2 by (rewrite F; done).
      unfold try_catch, mbind, M_bind, bind, readFile, parse. rewrite F, J.
      unfold mret, M_ret, ret, new_Date, PlayerData_upsert.
      match goal with |- context [Part000.merge_stats ?a ?b ?c] =>
        pose proof (merge_stats_db a b c) as Hm;
        destruct (Part000.merge_stats a b c) as [[] w0 | w0] end;
        exists w0; (split; [done |]); exact Hm.
    + unfold OfficialKothDB.sync_player. run_monad. rewrite F.
      rewrite bool_decide_eq_true_2 by done. by rewrite F, J.
  - intros [F | (fl & F & J)];
      unfold Part000.sync_player, OfficialKothDB.sync_player; run_monad; rewrite F.
    + by rewrite bool_decide_eq_false_2 by (by intros [? ?]).
    + rewrite bool_decide_eq_true_2 by done. by rewrite F, J.
Qed.


End Part000More.

Lemma allow_list_file_always_wins_witness :
  db (final (@Part000.sync_player Demo.host (JStr "bob") newer_row_world)) !! "bob"
    = Some (Row (@clock Demo.host 0) 1 Demo.score5) ∧
  @OfficialKothDB.sync_player Demo.host (JStr "bob") open_session_world
    = Returned tt open_session_world.
Proof.
  destruct (@allow_list_file_always_wins Demo.host (JStr "bob") newer_row_world)
    as [Hwin _].
  destruct (Hwin (File 10 (Demo.print Demo.score5)) Demo.score5)
    as [(w' & R & D) _]; [by vm_compute | by vm_compute |].
  destruct (@allow_list_file_always_wins Demo.host (JStr "bob") open_session_world)
    as [_ Hskip].
  destruct Hskip as [_ R2].
  { right. exists (File 10 "{oops"). split; by vm_compute. }
  rewrite R. cbn [final]. rewrite D. split; [by vm_compute | exact R2].
Defined.


(** ** What the allow-list sweeps reach, and the push at mount *)

Section AllowListSweeps.
Context `{Host}.

(** [syncServerSettings] never throws; it either leaves everything as it is
    or writes the decoded settings row to ServerSettings.json. *)
Lemma syncServerSettings_cases (w : world) :
  Part000.syncServerSettings w = Returned tt w ∧
    (db w !! "ServerSettings" = None ∨
     ∃ row, db w !! "ServerSettings" = Some row ∧ decode (playerdata row) w = Thrown w)
  ∨ ∃ row serverData,
      db w !! "ServerSettings" = Some row ∧
      decode (playerdata row) w = Returned serverData w ∧
      Part000.syncServerSettings w =
        Returned tt (next_tick (set_fs (<["ServerSettings.json" :=
                                           File (clock (tick w)) (JSON_stringify2 serverData)]>
                                         (fs w)) w)).
Proof.
  unfold Part000.syncServerSettings, try_catch, mbind, M_bind, bind, PlayerData_findOne.
  destruct (db w !! "ServerSettings") as [row|] eqn:D; [| left; split; [done | by left]].
  destruct (decode_cases (playerdata row) w) as [[serverData Dec] | Dec]; rewrite Dec.
  - right. by exists row, serverData.
  - left. split; [done |]. right. by exists row.
Qed.

Lemma Part000_sync_player_frame (entry : json) (w : world) :
  ∃ w', Part000.sync_player entry w = Returned tt w' ∧ fs w' = fs w ∧
        ∀ id, id ≠ js_String entry → db w' !! id = db w !! id.
Proof.
  unfold Part000.sync_player.
  unfold mbind at 1, M_bind at 1, bind at 1, existsSync.
  destruct (bool_decide _); [| by eexists].
  unfold try_catch, mbind, M_bind, bind, readFile.
  destruct (fs w !! _) as [fl|]; [| by eexists].
  unfold parse. destruct (JSON_parse (content fl)) as [playerData|]; [| by eexists].
  unfold mret, M_ret, ret, new_Date, PlayerData_upsert.
  match goal with |- context [Part000.merge_stats ?a ?b ?c] =>
    pose proof (merge_stats_fs a b c) as Hf;
    pose proof (merge_stats_db a b c) as Hd;
    destruct (Part000.merge_stats a b c) as [[] w0 | w0] end;
    exists w0; cbn [final] in *; (split; [done |]); (split; [exact Hf |]);
    intros id Hne; rewrite Hd; world_simpl; by rewrite lookup_insert_ne.
Qed.

Lemma Part000_for_players_frame (connectedSteamIDs : list json) (w : world) :
  ∃ w', Part000.for_players connectedSteamIDs w = Returned tt w' ∧ fs w' = fs w ∧
        ∀ id, (∀ e, e ∈ connectedSteamIDs → js_String e ≠ id) → db w' !! id = db w !! id.
Proof.
  revert w. induction connectedSteamIDs as [|entry rest IH]; intros w.
  - by exists w.
  - cbn [Part000.for_players]. unfold mbind, M_bind, bind.
    destruct (Part000_sync_player_frame entry w) as (w1 & -> & F1 & D1).
    destruct (IH w1) as (w' & R & F' & D'). exists w'. conj; [done | congruence |].
    intros id Hid. rewrite D', D1; [done | |].
    + intros ->. by apply (Hid entry); [set_solver |].
    + intros e He. apply Hid. set_solver.
Qed.

(** The sweep of part_000 always runs to its end; the only file it can
    write is ServerSettings.json, and the only rows of the table it can
    write are those of the players on the allow-list. *)
Theorem Part000_sweep_reach (w : world) (connectedSteamIDs : list json) :
  Part000.readPlayerList w = Returned connectedSteamIDs w →
  ∃ w', Part000.syncKothFiles w = Returned tt w' ∧
        (∀ name, name ≠ "ServerSettings.json" → fs w' !! name = fs w !! name) ∧
        (∀ id, (∀ e, e ∈ connectedSteamIDs → js_String e ≠ id) →
               db w' !! id = db w !! id).
Proof.
  intros R. unfold Part000.syncKothFiles, try_catch.
  unfold mbind at 1 2, M_bind at 1 2, bind at 1 2. rewrite R.
  destruct ((50 <=? length connectedSteamIDs) && syncEnabled).
  - destruct (syncServerSettings_cases w) as [[-> _] | (row & sd & _ & _ & ->)].
    + destruct (Part000_for_players_frame connectedSteamIDs w) as (w' & -> & F & D).
      exists w'. conj; [done | by intros; rewrite F | done].
    + match goal with |- context [Part000.for_players _ ?w1] =>
        destruct (Part000_for_players_frame connectedSteamIDs w1) as (w' & -> & F & D) end.
      exists w'. conj; [done | |].
      * intros name Hne. rewrite F. world_simpl. by rewrite lookup_insert_ne.
      * intros id Hid. by rewrite D.
  - unfold mret, M_ret, ret.
    destruct (Part000_for_players_frame connectedSteamIDs w) as (w' & -> & F & D).
    exists w'. conj; [done | by intros; rewrite F | done].
Qed.

(** At mount part_000 pushes the settings whatever the allow-list holds.
    A missing folder is created (line 254) and [mount] goes on; it stays
    dormant only when the creation fails.  So whenever the folder exists or
    could be created, and the ServerSettings row decodes, [mount] returns
    with the hooks created and ServerSettings.json holds the serialized row,
    even with no player connected. *)
Theorem Part000_mount_pushes_settings (folder_exists mkdir_succeeds : bool) (w : world)
    (row : PlayerData) (serverData : json) :
  folder_exists || mkdir_succeeds = true →
  db w !! "ServerSettings" = Some row →
  decode (playerdata row) w = Returned serverData w →
  ∃ w' t, Part000.mount folder_exists mkdir_succeeds w = Returned true w' ∧
          fs w' !! "ServerSettings.json"
            = Some (File (clock t) (JSON_stringify2 serverData)).
Proof.
  intros Ready D Dec. unfold Part000.mount.
  replace (negb folder_exists && negb mkdir_succeeds) with false
    by (by destruct folder_exists, mkdir_succeeds).
  unfold mbind, M_bind, bind, mret, M_ret, ret.
  destruct (syncServerSettings_cases w) as [[_ [D' | (row' & D' & Dec')]]
                                           | (row' & sd & D' & Dec' & ->)];
    [congruence | congruence |].
  assert (row' = row) as -> by congruence.
  assert (sd = serverData) as -> by congruence.
  set (w1 := next_tick _).
  unfold Part000.syncKothFiles, try_catch.
  unfold mbind at 1 2, M_bind at 1 2, bind at 1 2.
  destruct (readPlayerList_returns w1) as (l & ->).
  destruct ((50 <=? length l) && syncEnabled).
  - destruct (syncServerSettings_cases w1) as [[-> _] | (row2 & sd2 & D2 & Dec2 & ->)].
    + destruct (Part000_for_players_frame l w1) as (w' & -> & F & _).
      exists w', (tick w). split; [done |]. rewrite F. subst w1. world_simpl.
      by rewrite lookup_insert_eq.
    + match goal with |- context [Part000.for_players _ ?w2] =>
        destruct (Part000_for_players_frame l w2) as (w' & -> & F & _) end.
      exists w', (tick w1). split; [done |]. rewrite F. world_simpl.
      rewrite lookup_insert_eq. subst w1. cbn [db next_tick set_fs] in D2. rewrite D in D2.
      injection D2 as <-. apply (decode_any_world _ _ _ w) in Dec2.
      rewrite Dec in Dec2. by injection Dec2 as <-.
  - unfold mret, M_ret, ret.
    destruct (Part000_for_players_frame l w1) as (w' & -> & F & _).
    exists w', (tick w). split; [done |]. rewrite F. subst w1. world_simpl.
    by rewrite lookup_insert_eq.
Qed.

Lemma Official_for_players_frame (connectedSteamIDs : list json) (w : world) :
  ∃ w', OfficialKothDB.for_players connectedSteamIDs w = Returned tt w' ∧ fs w' = fs w.
Proof.
  revert w. induction connectedSteamIDs as [|entry rest IH]; intros w.
  - by exists w.
  - cbn [OfficialKothDB.for_players]. unfold mbind at 1, M_bind at 1, bind at 1.
    assert (∃ w1, OfficialKothDB.sync_player entry w = Returned tt w1 ∧ fs w1 = fs w)
      as (w1 & -> & F1).
    { unfold OfficialKothDB.sync_player. run_monad.
      destruct (bool_decide _); [| by eexists].
      destruct (fs w !! _) as [fl|]; [| by eexists].
      destruct (JSON_parse (content fl)); by eexists. }
    destruct (IH w1) as (w' & R & F'). exists w'. split; [done | congruence].
Qed.

(** The sweep of OfficialKothDB.js pushes the settings first, at every
    sweep and whatever the allow-list holds.  The push is not guarded on its
    own: a ServerSettings row whose text is no JSON ends the sweep before
    any player is looked at, and nothing is written. *)
Theorem Official_sweep_settings_first (w : world) :
  (∀ row serverData,
     db w !! "ServerSettings" = Some row →
     decode (playerdata row) w = Returned serverData w →
     ∃ w', OfficialKothDB.syncKothFiles w = Returned tt w' ∧
           fs w' = <["ServerSettings.json" :=
                       File (clock (tick w)) (JSON_stringify2 serverData)]> (fs w)) ∧
  (∀ row,
     db w !! "ServerSettings" = Some row →
     decode (playerdata row) w = Thrown w →
     OfficialKothDB.syncKothFiles w = Returned tt w).
Proof.
  split.
  - intros row serverData D Dec.
    unfold OfficialKothDB.syncKothFiles, try_catch, Part002.push_settings.
    unfold mbind at 1 2 3 4, M_bind at 1 2 3 4, bind at 1 2 3 4, PlayerData_findOne.
    rewrite D, Dec. unfold writeFile, OfficialKothDB.readPlayerList.
    match goal with |- context [Part000.readPlayerList ?w1] =>
      destruct (readPlayerList_returns w1) as (l & ->);
      destruct (Official_for_players_frame l w1) as (w' & -> & F) end.
    exists w'. split; [done |]. by rewrite F.
  - intros row D Dec.
    unfold OfficialKothDB.syncKothFiles, try_catch, Part002.push_settings.
    unfold mbind, M_bind, bind, PlayerData_findOne. by rewrite D, Dec.
Qed.

End AllowListSweeps.

Lemma Part000_sweep_reach_witness :
  db (final (@Part000.syncKothFiles Demo.host
               (set_fs (<["bob.json" := File 99 (Demo.print Demo.score5)]>
                          (fs (gate_world 2))) (gate_world 2)))) !! "bob" = None.
Proof.
  destruct (@Part000_sweep_reach Demo.host
              (set_fs (<["bob.json" := File 99 (Demo.print Demo.score5)]>
                         (fs (gate_world 2))) (gate_world 2))
              (replicate 2 (JStr Demo.steamid1))) as (w' & R & _ & D);
    [by vm_compute |].
  rewrite R. cbn [final]. rewrite (D "bob"); [by vm_compute |].
  intros e He. apply elem_of_replicate in He as [-> _]. by vm_compute.
Defined.

Lemma Part000_mount_pushes_settings_witness :
  (* the folder was missing and has just been created: it holds no file *)
  ∃ w' t, @Part000.mount Demo.host false true (set_fs ∅ (gate_world 2)) = Returned true w' ∧
          fs w' !! "ServerSettings.json"
            = Some (File (@clock Demo.host t) (Demo.print Demo.hp100)).
Proof.
  apply (@Part000_mount_pushes_settings Demo.host false true (set_fs ∅ (gate_world 2))
           (Row 3 2 Demo.hp100) Demo.hp100); by vm_compute.
Defined.

Lemma Official_sweep_settings_first_witness :
  @OfficialKothDB.syncKothFiles Demo.host
     (set_db (<["ServerSettings" := Row 3 2 (JStr "{oops")]> (db newer_row_world))
             newer_row_world)
  = Returned tt
     (set_db (<["ServerSettings" := Row 3 2 (JStr "{oops")]> (db newer_row_world))
             newer_row_world).
Proof.
  destruct (@Official_sweep_settings_first Demo.host
              (set_db (<["ServerSettings" := Row 3 2 (JStr "{oops")]> (db newer_row_world))
                      newer_row_world)) as [_ Habort].
  apply (Habort (Row 3 2 (JStr "{oops"))); by vm_compute.
Defined.

Lemma readPlayerList_total_witness :
  @Part000.readPlayerList Demo.host (gate_world 2)
    = Returned (replicate 2 (JStr Demo.steamid1)) (gate_world 2) ∧
  @Part000.readPlayerList Demo.host open_session_world = Returned [] open_session_world.
Proof.
  destruct (@readPlayerList_total Demo.host open_session_world) as (l & R & Hl).
  split; [by vm_compute |].
  destruct l as [|e l]; [exact R |].
  destruct Hl as (fl & fields & F & _); [done |]. by vm_compute in F.
Defined.

(** ** Arrival in part_000 and part_001 *)

Section Arrival.
Context `{Host}.

(** Arrival when the row's playerdata is stored as text that is no JSON:
    DBKoth.js serializes the text as it is; in part_001 and part_000 the
    [JSON.parse] of the handler is not guarded, the error leaves the handler
    and nothing is written -- in part_000 no session is opened either. *)
Theorem arrival_with_undecodable_row (steamID : string) (row : PlayerData) (w : world) :
  db w !! steamID = Some row →
  decode (playerdata row) w = Thrown w →
  Part001.onPlayerConnected steamID w = Thrown w ∧
  Part000.onPlayerConnected steamID w = Thrown w ∧
  DBKoth.onPlayerConnected steamID w =
    Returned tt
      (next_tick (set_fs (<[getplayerfilename steamID :=
                              File (clock (tick w)) (JSON_stringify (playerdata row))]>
                            (fs w)) w)).
Proof.
  intros D Dec.
  unfold Part001.onPlayerConnected, Part000.onPlayerConnected, DBKoth.onPlayerConnected.
  unfold mbind, M_bind, bind, PlayerData_findOne, getplayerids. by rewrite D, Dec.
Qed.

(** Arrival in part_000 of a player who has a row (with playerdata that
    decodes): the file is overwritten from the row, and the session of the
    player is opened -- or restarted -- with the time of the last clock
    reading of the handler; the sessions of the other players and the table
    are as they were. *)
Theorem arrival_opens_session (steamID : string) (row : PlayerData) (data : json)
    (w : world) :
  db w !! steamID = Some row →
  decode (playerdata row) w = Returned data w →
  ∃ w', Part000.onPlayerConnected steamID w = Returned tt w' ∧
        sessions w' = <[steamID := clock (S (S (tick w)))]> (sessions w) ∧
        db w' = db w ∧
        fs w' = <[getplayerfilename steamID :=
                    File (clock (tick w)) (JSON_stringify2 data)]> (fs w).
Proof.
  intros D Dec. unfold Part000.onPlayerConnected.
  unfold mbind, M_bind, bind, PlayerData_findOne, getplayerids. rewrite D, Dec.
  run_monad. world_simpl. rewrite D. eexists. split; [done |]. by world_simpl.
Qed.

End Arrival.

Lemma arrival_with_undecodable_row_witness :
  @Part000.onPlayerConnected Demo.host "bob"
     (set_db (<["bob" := Row 3 2 (JStr "{oops")]> ∅) newer_row_world)
  = Thrown (set_db (<["bob" := Row 3 2 (JStr "{oops")]> ∅) newer_row_world).
Proof.
  destruct (@arrival_with_undecodable_row Demo.host "bob" (Row 3 2 (JStr "{oops"))
              (set_db (<["bob" := Row 3 2 (JStr "{oops")]> ∅) newer_row_world))
    as (_ & R & _); [by vm_compute | by vm_compute | exact R].
Defined.

Lemma arrival_opens_session_witness :
  sessions (final (@Part000.onPlayerConnected Demo.host "bob" open_session_world))
    !! "bob" = Some (@clock Demo.host 9).
Proof.
  destruct (@arrival_opens_session Demo.host "bob" (Row 3 2 Demo.hp100) Demo.hp100
              open_session_world) as (w' & R & S & _); [by vm_compute | done |].
  rewrite R. cbn [final]. rewrite S. by vm_compute.
Defined.
